(** * Invoice generator: a shallow embedding of [generate_invoice.py]

    The development follows the source file top to bottom: the Python
    built-ins the program relies on ([str.strip], [int], [str], the format
    specification [0Nd], the three regular expressions and the glob
    pattern), then the functions of the program under their own names, then
    [main] as a computation that returns or raises while emitting a trace of
    its effects.

    Scope of the model.
    - A Python [str] is a [string] whose characters are code points below
      256. In that range the characters that [\d] and [int] take for
      decimal digits are exactly ['0'..'9'].
    - Integers are unbounded ([Z]); the interpreter's optional limit on the
      number of digits of an integer/string conversion is not modelled.
      Where a statement gives the result of such a conversion on a text or
      a number of any size, it carries the limit as a hypothesis
      ([int_within_limit], [str_within_limit]).
    - File-system operations do not fail on their own; the failures that
      are modelled are those the program distinguishes. *)

From Stdlib Require Import ZArith Lia Ascii String DecimalString DecimalZ.
From stdpp Require Import base strings functions gmap sorting.

Local Open Scope string_scope.
Local Open Scope list_scope.
Local Open Scope Z_scope.

#[local] Arguments String.append !_ _ / : simpl nomatch.

(** ** Exceptions and fallible results *)

(** The text of a message is kept as data: one constructor per message the
    source builds, with the values interpolated into it. *)
Inductive message : Type :=
  | MsgInvalidLiteral (s : string)
      (* int(): invalid literal for int() with base 10: {s!r} *)
  | MsgMissingKeys (missing : list string)
      (* f"Missing required keys in .env: {', '.join(missing)}" *)
  | MsgInvalidCounter (raw : string)
      (* f"Invalid invoice_number.txt content: {raw!r}" *)
  | MsgNoInput            (* "No input provided." *)
  | MsgInvalidFormat      (* "Invalid format. Use: M, MM, MM/YYYY, or YYYY-MM." *)
  | MsgMonthRange         (* "Month must be between 1 and 12." *)
  | MsgYearInvalid        (* "Year looks invalid." *)
  | MsgNodeNotFound       (* "node not found in PATH. Install Node.js to use Playwright." *)
  | MsgPythonNotFound     (* "python not found in PATH." *)
  | MsgExternal (s : string).
      (* whatever a collaborator (Jinja2, Playwright) reports *)

(** All of these are subclasses of Python's [Exception]. *)
Inductive exn : Type :=
  | ValueError (m : message)
  | RuntimeError (m : message)
  | EOFError
  | ExternalError (m : message).

Inductive result (A : Type) : Type :=
  | Ok (a : A)
  | Raise (e : exn).
Arguments Ok {A} a.
Arguments Raise {A} e.

Definition rbind {A B} (r : result A) (k : A → result B) : result B :=
  match r with
  | Ok a => k a
  | Raise e => Raise e
  end.

Notation "'let?' x := r 'in' k" := (rbind r (λ x, k))
  (at level 10, x pattern, r at level 200, k at level 200).

(** ** Characters *)

Definition code (c : ascii) : N := N_of_ascii c.

(** [\d], and the digits [int] accepts. *)
Definition is_digit (c : ascii) : bool :=
  ((48 <=? code c) && (code c <=? 57))%N.

Definition digit_value (c : ascii) : Z := Z.of_N (code c) - 48.

(** [str.isspace]: TAB, LF, VT, FF, CR, FS, GS, RS, US, SPACE, NEL, NBSP. *)
Definition is_space (c : ascii) : bool :=
  (((9 <=? code c) && (code c <=? 13)) || ((28 <=? code c) && (code c <=? 32))
   || (code c =? 133) || (code c =? 160))%N.

(** The white space [int] skips around a literal: the same without the
    four separators FS, GS, RS, US. *)
Definition is_int_space (c : ascii) : bool :=
  (((9 <=? code c) && (code c <=? 13)) || (code c =? 32)
   || (code c =? 133) || (code c =? 160))%N.

Definition LF : ascii := "010"%char.

(** ** Strings *)

Section strip.
Variable sp : ascii → bool.

Fixpoint lstrip_with (s : string) : string :=
  match s with
  | String c s' => if sp c then lstrip_with s' else s
  | EmptyString => EmptyString
  end.

Fixpoint rstrip_with (s : string) : string :=
  match s with
  | EmptyString => EmptyString
  | String c s' =>
      match rstrip_with s' with
      | EmptyString => if sp c then EmptyString else String c EmptyString
      | r => String c r
      end
  end.

Definition strip_with (s : string) : string := rstrip_with (lstrip_with s).
End strip.

(** [s.strip()] *)
Definition strip (s : string) : string := strip_with is_space s.

(** A literal at the head of [s]; what follows it. *)
Fixpoint eat (lit s : string) : option string :=
  match lit with
  | EmptyString => Some s
  | String a lit' =>
      match s with
      | String b s' => if Ascii.eqb a b then eat lit' s' else None
      | EmptyString => None
      end
  end.

(** [\d{n}] at the head of [s]: the digits and what follows them. *)
Fixpoint digits_exact (n : nat) (s : string) : option (string * string) :=
  match n with
  | O => Some (EmptyString, s)
  | S n' =>
      match s with
      | String c s' =>
          if is_digit c
          then match digits_exact n' s' with
               | Some (ds, rest) => Some (String c ds, rest)
               | None => None
               end
          else None
      | EmptyString => None
      end
  end.

(** The longest run of digits at the head of [s] and what follows it. *)
Fixpoint span_digits (s : string) : string * string :=
  match s with
  | String c s' =>
      if is_digit c
      then let '(ds, rest) := span_digits s' in (String c ds, rest)
      else (EmptyString, s)
  | EmptyString => (EmptyString, EmptyString)
  end.

(** ** [int(s)] and [str(n)] *)

(** The digits after the first one: [(["_"] digit)*], up to the end. *)
Fixpoint int_digits (acc : Z) (s : string) : option Z :=
  match s with
  | EmptyString => Some acc
  | String c s' =>
      if is_digit c then int_digits (acc * 10 + digit_value c) s'
      else if Ascii.eqb c "_" then
        match s' with
        | String d s'' =>
            if is_digit d then int_digits (acc * 10 + digit_value d) s''
            else None
        | EmptyString => None
        end
      else None
  end.

(** [int(s)] in base 10: white space around, an optional sign, digits with
    single underscores between them. *)
Definition split_sign (t : string) : bool * string :=
  match t with
  | String c r =>
      if Ascii.eqb c "-" then (true, r)
      else if Ascii.eqb c "+" then (false, r)
      else (false, t)
  | EmptyString => (false, t)
  end.

Definition py_int (s : string) : result Z :=
  let t := strip_with is_int_space s in
  let '(negative, body) := split_sign t in
  match body with
  | String c r =>
      if is_digit c then
        match int_digits (digit_value c) r with
        | Some v => Ok (if negative then - v else v)
        | None => Raise (ValueError (MsgInvalidLiteral s))
        end
      else Raise (ValueError (MsgInvalidLiteral s))
  | EmptyString => Raise (ValueError (MsgInvalidLiteral s))
  end.

(** [str(n)], also what [f"{n}"] gives. *)
Definition py_str (n : Z) : string := NilZero.string_of_int (Z.to_int n).

Fixpoint zeros (n : nat) : string :=
  match n with
  | O => EmptyString
  | S n' => String "0" (zeros n')
  end.

(** [f"{n:0wd}"]: zeros between the sign and the digits up to width [w]. *)
Definition format_0d (w : nat) (n : Z) : string :=
  let digits := py_str (Z.abs n) in
  if n <? 0
  then String "-" (zeros (w - 1 - String.length digits) +:+ digits)
  else zeros (w - String.length digits) +:+ digits.

(** [sep.join(parts)] *)
Fixpoint join (sep : string) (parts : list string) : string :=
  match parts with
  | [] => EmptyString
  | [p] => p
  | p :: rest => p +:+ sep +:+ join sep rest
  end.

(** ** Regular expressions and the glob pattern *)

(** [$] holds at the end of the string and also just before a line feed
    that ends the string. *)
Definition at_dollar (s : string) : bool :=
  match s with
  | EmptyString => true
  | String c EmptyString => Ascii.eqb c LF
  | _ => false
  end.

(** [re.match] of [^Invoice_(\d{w1})_(\d{w2})_#(\d+)\.pdf$]: the three
    groups. The group [\d+] is followed by a dot, so the only run of digits
    that lets the rest match is the longest one. *)
Definition invoice_pattern (w1 w2 : nat) (name : string)
  : option (string * string * string) :=
  rest ← eat "Invoice_" name;
  '(g1, rest) ← digits_exact w1 rest;
  rest ← eat "_" rest;
  '(g2, rest) ← digits_exact w2 rest;
  rest ← eat "_#" rest;
  let '(g3, rest) := span_digits rest in
  match g3 with
  | EmptyString => None
  | _ =>
      rest ← eat ".pdf" rest;
      if at_dollar rest then Some (g1, g2, g3) else None
  end.

Definition pattern_new : string → option (string * string * string) :=
  invoice_pattern 4 2.
Definition pattern_old : string → option (string * string * string) :=
  invoice_pattern 2 4.

(** [re.fullmatch(r"(\d{1,2})", raw)] *)
Definition fullmatch_m (raw : string) : option string :=
  match digits_exact 2 raw with
  | Some (g, EmptyString) => Some g
  | _ =>
      match digits_exact 1 raw with
      | Some (g, EmptyString) => Some g
      | _ => None
      end
  end.

(** [re.fullmatch(r"(\d{1,2})/(\d{4})", raw)]: two digits are tried
    first, then one. *)
Definition fullmatch_m_y (raw : string) : option (string * string) :=
  let tail (w : nat) : option (string * string) :=
    '(g1, rest) ← digits_exact w raw;
    rest ← eat "/" rest;
    '(g2, rest) ← digits_exact 4 rest;
    match rest with
    | EmptyString => Some (g1, g2)
    | _ => None
    end in
  match tail 2%nat with
  | Some g => Some g
  | None => tail 1%nat
  end.

(** [re.fullmatch(r"(\d{4})-(\d{1,2})", raw)] *)
Definition fullmatch_y_m (raw : string) : option (string * string) :=
  '(g1, rest) ← digits_exact 4 raw;
  rest ← eat "-" rest;
  g2 ← fullmatch_m rest;
  Some (g1, g2).

Fixpoint ends_with (suffix s : string) : bool :=
  String.eqb s suffix
  || match s with
     | String _ s' => ends_with suffix s'
     | EmptyString => false
     end.

(** A name selected by [glob("Invoice_*.pdf")] (names compared case by
    case, as on a POSIX file system). *)
Definition glob_invoice_pdf (name : string) : bool :=
  match eat "Invoice_" name with
  | Some rest => ends_with ".pdf" rest
  | None => false
  end.

(** A directory: [None] when it does not exist, else the names of its
    entries, in the order the file system lists them. *)
Definition glob (invoices_dir : option (list string)) : list string :=
  match invoices_dir with
  | Some entries => List.filter glob_invoice_pdf entries
  | None => []
  end.

(** [for x in xs: state = body(x, state)], where the body may raise. *)
Fixpoint for_each {X S : Type} (xs : list X) (state : S)
    (body : X → S → result S) : result S :=
  match xs with
  | [] => Ok state
  | x :: rest => let? state' := body x state in for_each rest state' body
  end.

(** ** The program *)

Definition REQUIRED_ENV_KEYS : list string :=
  [ "COMPANY_NAME"; "COMPANY_ID"; "BILL_FROM"; "BILL_TO"; "SERVICE_TITLE";
    "SERVICE_DESC"; "CURRENCY"; "AMOUNT"; "BENEFICIARY_NAME"; "IBAN";
    "SWIFT"; "BANK_NAME"; "BANK_ADDRESS"; "INTERMEDIARY_BANK_NAME";
    "INTERMEDIARY_BANK_SWIFT"; "SUPPORT_EMAIL" ].

Record InvoiceTarget : Type := { month : Z; year : Z }.

Definition month_str (t : InvoiceTarget) : string := format_0d 2 (month t).
Definition year_str (t : InvoiceTarget) : string := format_0d 4 (year t).
Definition ym_str (t : InvoiceTarget) : string :=
  year_str t +:+ "-" +:+ month_str t.

(** [value.replace("\\n", "\n")] *)
Fixpoint _normalize_env_value (value : string) : string :=
  match value with
  | String c rest =>
      match rest with
      | String d rest' =>
          if Ascii.eqb c "\" && Ascii.eqb d "n"
          then String LF (_normalize_env_value rest')
          else String c (_normalize_env_value rest)
      | EmptyString => String c EmptyString
      end
  | EmptyString => EmptyString
  end.

Definition key_missing (env : gmap string string) (k : string) : bool :=
  match env !! k with
  | None => true
  | Some v => String.eqb v ""
  end.

(** [values] is what [dotenv_values(env_path)] returned, as its items. *)
Definition _load_env (values : list (option string * option string))
  : result (gmap string string) :=
  let env :=
    foldl (λ (env : gmap string string) kv,
             match kv with
             | (Some k, Some v) => <[k := _normalize_env_value v]> env
             | _ => env
             end) ∅ values in
  let missing := List.filter (key_missing env) REQUIRED_ENV_KEYS in
  match missing with
  | [] => Ok env
  | _ => Raise (ValueError (MsgMissingKeys missing))
  end.

(** A text file: [None] when it does not exist, else its text. *)
Definition _read_last_invoice_number (file : option string) : result Z :=
  match file with
  | None => Ok 0
  | Some text =>
      let raw := strip text in
      match raw with
      | EmptyString => Ok 0
      | _ =>
          match py_int raw with
          | Raise (ValueError _) => Raise (ValueError (MsgInvalidCounter raw))
          | r => r
          end
      end
  end.

Definition _parse_invoice_filename (name : string)
  : result (option Z * option Z * option Z) :=
  match pattern_new name with
  | Some (g1, g2, g3) =>
      let? year := py_int g1 in
      let? month := py_int g2 in
      let? number := py_int g3 in
      Ok (Some year, Some month, Some number)
  | None =>
      match pattern_old name with
      | Some (g1, g2, g3) =>
          let? month := py_int g1 in
          let? year := py_int g2 in
          let? number := py_int g3 in
          Ok (Some year, Some month, Some number)
      | None => Ok (None, None, None)
      end
  end.

(** The order of Python tuples [(year, month)]. *)
Definition tuple_le (a b : Z * Z) : Prop :=
  a.1 < b.1 ∨ (a.1 = b.1 ∧ a.2 ≤ b.2).

#[global] Instance tuple_le_dec : RelDecision tuple_le.
Proof. intros a b. unfold tuple_le. apply _. Defined.

Definition _list_generated_targets (invoices_dir : option (list string))
  : result (list InvoiceTarget) :=
  let targets : gset (Z * Z) := ∅ in
  match invoices_dir with
  | None => Ok []
  | Some _ =>
      let? targets :=
        for_each (glob invoices_dir) targets (λ p targets,
          let? parsed := _parse_invoice_filename p in
          match parsed with
          | (Some year, Some month, _) =>
              if (1 <=? month) && (month <=? 12)
              then Ok ({[ (year, month) ]} ∪ targets)
              else Ok targets
          | _ => Ok targets
          end) in
      Ok ((λ ym, {| month := ym.2; year := ym.1 |})
            <$> merge_sort tuple_le (elements targets))
  end.

Definition _max_invoice_number_from_pdfs (invoices_dir : option (list string))
  : result Z :=
  let max_n := 0 in
  match invoices_dir with
  | None => Ok 0
  | Some _ =>
      for_each (glob invoices_dir) max_n (λ p max_n,
        let? parsed := _parse_invoice_filename p in
        match parsed with
        | (_, _, None) => Ok max_n
        | (_, _, Some number) =>
            if number >? max_n then Ok number else Ok max_n
        end)
  end.

Definition _format_targets (targets : list InvoiceTarget) : string :=
  match targets with
  | [] => "none yet"
  | _ => join ", " (ym_str <$> targets)
  end.

(** ** Effects

    What the program does to the outside is recorded as a trace of events;
    what it learns from the outside is read from a [World], one field per
    question the source asks. The test of the output name is a question of
    its own: the file system answers it with its own comparison of names
    (case folding, for one), which is not that of the two patterns, so the
    answer is not derived from the listing of the directory. *)

Inductive path : Type :=
  | EnvPath                     (* base / ".env" *)
  | TemplatePath                (* base / "invoice_template.html" *)
  | InvoicesDir                 (* base / "invoices" *)
  | NumberPath                  (* base / "invoice_number.txt" *)
  | TempHtml                    (* base / "invoice_temp.html" *)
  | TempPdf                     (* base / "invoice_temp.pdf" *)
  | InvoicePdf (name : string). (* invoices_dir / name *)

#[global] Instance path_eq_dec : EqDecision path.
Proof. solve_decision. Defined.

(** The lines [main] prints. *)
Inductive output : Type :=
  | OutEnvNotFound        (* f"Error: .env file not found: {env_path}" *)
  | OutTemplateNotFound   (* f"Error: HTML template not found: {template_path}" *)
  | OutAlreadyGenerated (months : string)
      (* f"Already generated months (detected from filenames): {...}" *)
  | OutError (exc : exn)  (* f"Error: {exc}" *)
  | OutWarning (ym : string)
      (* f"Warning: an invoice for {ym} already exists in ./invoices" *)
  | OutPdfExists (name : string)
      (* f"Error: output PDF already exists: {name}" *)
  | OutNotGenerated       (* "Error: PDF was not generated." *)
  | OutPdfGenerated (name : string).  (* f"PDF generated: {pdf_out_path}" *)

Inductive event : Type :=
  | EvPrint (line : output)
  | EvMkdir (p : path)
  | EvInput                                   (* input(...): a line is read *)
  | EvRender (context : gmap string string)   (* Jinja2 renders the template *)
  | EvWriteText (p : path) (content : string)
  | EvHtmlToPdf (src dst : path)              (* Chromium prints the page *)
  | EvMove (src dst : path)
  | EvRemoveIfExists (p : path).              (* if p.exists(): p.unlink() *)

Record M (A : Type) : Type := Run { outcome : result A; trace : list event }.
Arguments Run {A} outcome trace.
Arguments outcome {A} m.
Arguments trace {A} m.

#[global] Instance M_ret : MRet M := λ A a, Run (Ok a) [].

#[global] Instance M_bind : MBind M := λ A B k m,
  match m with
  | Run (Ok a) t => match k a with Run o t' => Run o (t ++ t') end
  | Run (Raise e) t => Run (Raise e) t
  end.

Definition raise {A} (e : exn) : M A := Run (Raise e) [].
Definition lift {A} (r : result A) : M A := Run r [].
Definition emit (ev : event) : M () := Run (Ok ()) [ev].
Definition print (line : output) : M () := emit (EvPrint line).

(** [try: m / except Exception as exc: ...]: the handler receives what [m]
    raised. *)
Definition try {A} (m : M A) : M (result A) :=
  match m with Run o t => Run (Ok o) t end.

(** [try: m / finally: cleanup], also when [m] leaves by [return]. *)
Definition finally {A} (m : M A) (cleanup : M ()) : M A :=
  match m, cleanup with
  | Run o t, Run (Ok _) t' => Run o (t ++ t')
  | Run _ t, Run (Raise e) t' => Run (Raise e) (t ++ t')
  end.

(** The text files after the events of a trace: [files p] is the text of
    [p], or [None] when no text file is there. *)
Definition apply_event (ev : event) (files : path → option string)
  : path → option string :=
  match ev with
  | EvWriteText p content => <[p := Some content]> files
  | EvMove src dst => <[src := None]> (<[dst := files src]> files)
  | EvRemoveIfExists p => <[p := None]> files
  | _ => files
  end.

Definition files_after (tr : list event) (files : path → option string)
  : path → option string :=
  foldl (λ fs ev, apply_event ev fs) files tr.

Record World : Type := {
  env_exists : bool;          (* env_path.exists() *)
  template_exists : bool;     (* template_path.exists() *)
  invoices : list string;     (* the entries of ./invoices, the same at
                                 both scans of a run *)
  today_year : Z;             (* date.today().year *)
  input_line : option string; (* what input() returns; None: end of input *)
  which_node : bool;          (* shutil.which("node") is not None *)
  which_python : bool;
  which_python3 : bool;
  dotenv_values : list (option string * option string);
  number_file : option string;       (* invoice_number.txt *)
  pdf_out_exists : string → bool;    (* (invoices_dir / name).exists() *)
  render : gmap string string → result string;  (* template.render with the context *)
  html_to_pdf : string → result ();  (* the conversion returns or raises *)
  temp_pdf_exists : bool             (* temp_pdf.exists() after it returned *)
}.

Definition _write_last_invoice_number (p : path) (value : Z) : M () :=
  emit (EvWriteText p (py_str value +:+ String LF EmptyString)).

(** [line] is what [input] returns. *)
Definition _prompt_target (line : option string) (default_year : Z)
  : M InvoiceTarget :=
  emit EvInput;;
  match line with
  | None => raise EOFError
  | Some line =>
      let raw := strip line in
      match raw with
      | EmptyString => raise (ValueError MsgNoInput)
      | _ =>
          let m1 := fullmatch_m raw in
          let m2 := fullmatch_m_y raw in
          let m3 := fullmatch_y_m raw in
          '(month, year) ← lift
            match m1, m2, m3 with
            | Some g1, _, _ =>
                let? month := py_int g1 in
                Ok (month, default_year)
            | None, Some (g1, g2), _ =>
                let? month := py_int g1 in
                let? year := py_int g2 in
                Ok (month, year)
            | None, None, Some (g1, g2) =>
                let? year := py_int g1 in
                let? month := py_int g2 in
                Ok (month, year)
            | None, None, None => Raise (ValueError MsgInvalidFormat)
            end;
          if negb ((1 <=? month) && (month <=? 12))
          then raise (ValueError MsgMonthRange)
          else if negb ((1900 <=? year) && (year <=? 3000))
          then raise (ValueError MsgYearInvalid)
          else mret {| month := month; year := year |}
      end
  end.

Definition _ensure_playwright_ready (w : World) : M () :=
  if negb (which_node w) then raise (RuntimeError MsgNodeNotFound)
  else if negb (which_python w) && negb (which_python3 w)
  then raise (RuntimeError MsgPythonNotFound)
  else mret ().

Definition _render_html (w : World) (context : gmap string string)
  : M string :=
  emit (EvRender context);; lift (render w context).

Definition _html_to_pdf (w : World) (html : string) (html_path pdf_path : path)
  : M () :=
  emit (EvHtmlToPdf html_path pdf_path);; lift (html_to_pdf w html).

(** [main], lines 268 to 271: the number of the invoice to generate. *)
Definition next_number (number_file : option string)
    (invoices_dir : option (list string)) : result Z :=
  let? last_from_file := _read_last_invoice_number number_file in
  let? last_from_pdfs := _max_invoice_number_from_pdfs invoices_dir in
  let last_number := Z.max last_from_file last_from_pdfs in
  Ok (last_number + 1).

Definition pdf_name (target : InvoiceTarget) (next_number : Z) : string :=
  "Invoice_" +:+ year_str target +:+ "_" +:+ month_str target
  +:+ "_#" +:+ py_str next_number +:+ ".pdf".

Definition main (w : World) : M Z :=
  let invoices_dir := Some (invoices w) in
  if negb (env_exists w) then print OutEnvNotFound;; mret 1
  else if negb (template_exists w) then print OutTemplateNotFound;; mret 1
  else
    emit (EvMkdir InvoicesDir);;
    generated ← lift (_list_generated_targets invoices_dir);
    print (OutAlreadyGenerated (_format_targets generated));;
    prompted ← try (_prompt_target (input_line w) (today_year w));
    match prompted with
    | Raise exc => print (OutError exc);; mret 1
    | Ok target =>
        (if existsb (λ t, (year t =? year target) && (month t =? month target))
                    generated
         then print (OutWarning (ym_str target)) else mret ());;
        ready ← try (_ensure_playwright_ready w);
        match ready with
        | Raise exc => print (OutError exc);; mret 1
        | Ok _ =>
            loaded ← try (lift (_load_env (dotenv_values w)));
            match loaded with
            | Raise exc => print (OutError exc);; mret 1
            | Ok env =>
                next_number ← lift (next_number (number_file w) invoices_dir);
                let creation_date :=
                  year_str target +:+ "-" +:+ month_str target +:+ "-01" in
                let due_date :=
                  year_str target +:+ "-" +:+ month_str target +:+ "-30" in
                let context :=
                  <["DUE_DATE" := due_date]>
                    (<["CREATION_DATE" := creation_date]>
                       (<["INVOICE_NUMBER" := py_str next_number]> env)) in
                let pdf_name := pdf_name target next_number in
                if pdf_out_exists w pdf_name
                then print (OutPdfExists pdf_name);; mret 1
                else
                  finally
                    (html ← _render_html w context;
                     emit (EvWriteText TempHtml html);;
                     _html_to_pdf w html TempHtml TempPdf;;
                     if negb (temp_pdf_exists w)
                     then print OutNotGenerated;; mret 1
                     else
                       emit (EvMove TempPdf (InvoicePdf pdf_name));;
                       _write_last_invoice_number NumberPath next_number;;
                       print (OutPdfGenerated pdf_name);;
                       mret 0)
                    (emit (EvRemoveIfExists TempHtml);;
                     emit (EvRemoveIfExists TempPdf))
            end
        end
    end.

(** [raise SystemExit(main())]: the status of the process. An exception
    that leaves [main] ends the process with status 1. *)
Definition exit_status (run : M Z) : Z :=
  match outcome run with
  | Ok status => status
  | Raise _ => 1
  end.

(** ** Vocabulary of the specification *)

Fixpoint all_chars (P : ascii → bool) (s : string) : bool :=
  match s with
  | EmptyString => true
  | String c s' => P c && all_chars P s'
  end.

Definition all_digits (s : string) : bool := all_chars is_digit s.

(** The number a string of decimal digits denotes, most significant digit
    first. *)
Fixpoint numeral_from (acc : Z) (s : string) : Z :=
  match s with
  | EmptyString => acc
  | String c s' => numeral_from (acc * 10 + digit_value c) s'
  end.

Definition numeral (s : string) : Z := numeral_from 0 s.

(** [Invoice_<YYYY>_<MM>_#<N>.pdf] and [Invoice_<MM>_<YYYY>_#<N>.pdf]. *)
Definition current_format (Y M N : string) : string :=
  "Invoice_" +:+ Y +:+ "_" +:+ M +:+ "_#" +:+ N +:+ ".pdf".

Definition legacy_format (Y M N : string) : string :=
  "Invoice_" +:+ M +:+ "_" +:+ Y +:+ "_#" +:+ N +:+ ".pdf".

(** A 4-digit year, a 2-digit month and a digit string. *)
Definition fields (Y M N : string) : Prop :=
  (all_digits Y = true ∧ String.length Y = 4%nat)
  ∧ (all_digits M = true ∧ String.length M = 2%nat)
  ∧ (all_digits N = true ∧ N ≠ EmptyString).

(** A file name in one of the two formats, with what it carries. *)
Definition invoice_filename (name : string) (y m n : Z) : Prop :=
  ∃ Y M N, fields Y M N
    ∧ (name = current_format Y M N ∨ name = legacy_format Y M N)
    ∧ y = numeral Y ∧ m = numeral M ∧ n = numeral N.



Definition all_absent : option Z * option Z * option Z := (None, None, None).

(** [digit (["_"] digit)*] *)
Inductive digit_group : string → Prop :=
  | group_one c : is_digit c = true → digit_group (String c EmptyString)
  | group_digit c s :
      is_digit c = true → digit_group s → digit_group (String c s)
  | group_underscore c s :
      is_digit c = true → digit_group s →
      digit_group (String c (String "_" s)).

(** The text of an integer: an optional sign and a digit group. *)
Definition integer_text (s : string) : Prop :=
  ∃ sign body,
    (sign = "" ∨ sign = "+" ∨ sign = "-") ∧ digit_group body
    ∧ s = sign +:+ body.

(** The data-model invariant of [InvoiceTarget]. *)
Definition valid_target (t : InvoiceTarget) : Prop :=
  (1 ≤ month t ≤ 12) ∧ (1900 ≤ year t ≤ 3000).

(** Targets in ascending order, by year then month, none twice. *)
Definition target_lt (a b : InvoiceTarget) : Prop :=
  year a < year b ∨ (year a = year b ∧ month a < month b).

(** The forms the prompt accepts: [M] or [MM], [MM/YYYY], [YYYY-MM], where
    a month is written with one or two digits; with the month and the year
    the text denotes. *)
Definition month_text (M : string) : Prop :=
  all_digits M = true ∧ (String.length M = 1%nat ∨ String.length M = 2%nat).

Definition year_text (Y : string) : Prop :=
  all_digits Y = true ∧ String.length Y = 4%nat.

Inductive accepted_form (default_year : Z) : string → Z → Z → Prop :=
  | form_month M :
      month_text M → accepted_form default_year M (numeral M) default_year
  | form_month_year M Y :
      month_text M → year_text Y →
      accepted_form default_year (M +:+ "/" +:+ Y) (numeral M) (numeral Y)
  | form_year_month M Y :
      month_text M → year_text Y →
      accepted_form default_year (Y +:+ "-" +:+ M) (numeral M) (numeral Y).

(** Events that make a PDF, and the event that updates the counter. *)
Definition makes_pdf (ev : event) : bool :=
  match ev with
  | EvHtmlToPdf _ _ | EvMove _ _ => true
  | _ => false
  end.


Definition updates_counter (ev : event) : bool :=
  match ev with
  | EvWriteText NumberPath _ => true
  | _ => false
  end.



(** A key that the items of a [.env] file leave missing or empty: no item
    gives the key a value, or the last item that does gives it the empty
    text. *)
Fixpoint last_value (k : string) (items : list (option string * option string))
  : option string :=
  match items with
  | [] => None
  | (Some k', Some v) :: rest =>
      match last_value k rest with
      | Some v' => Some v'
      | None => if String.eqb k' k then Some v else None
      end
  | _ :: rest => last_value k rest
  end.

Definition missing_or_empty (items : list (option string * option string))
    (k : string) : Prop :=
  last_value k items = None ∨ last_value k items = Some "".

(** The greatest sequence number that the invoice file names of a
    directory carry; zero when none of its names is an invoice file name. *)
Definition max_sequence_number (entries : list string) (v : Z) : Prop :=
  (∀ name y m n, name ∈ entries → invoice_filename name y m n → n ≤ v)
  ∧ ((∃ name y m, name ∈ entries ∧ invoice_filename name y m v)
     ∨ (v = 0 ∧ ∀ name y m n, name ∈ entries → ¬ invoice_filename name y m n)).

(** The run reaches the test of the output name: the target the prompt
    gave and the number the invoice gets, when every step before that test
    went through. *)
Definition reaches_output_check (w : World) : option (InvoiceTarget * Z) :=
  if env_exists w && template_exists w then
    match outcome (_prompt_target (input_line w) (today_year w)),
          outcome (_ensure_playwright_ready w),
          _load_env (dotenv_values w),
          next_number (number_file w) (Some (invoices w)) with
    | Ok target, Ok _, Ok _, Ok next => Some (target, next)
    | _, _, _, _ => None
    end
  else None.

(** A world in which a run succeeds: a complete configuration, an empty
    directory of invoices, no counter file, the answer [3] at the prompt in
    2026. *)
Definition complete_values : list (option string * option string) :=
  (λ k, (Some k, Some "x")) <$> REQUIRED_ENV_KEYS.

Definition fair_world : World :=
  {| env_exists := true;
     template_exists := true;
     invoices := [];
     today_year := 2026;
     input_line := Some "3";
     which_node := true;
     which_python := true;
     which_python3 := true;
     dotenv_values := complete_values;
     number_file := None;
     pdf_out_exists := λ _, false;
     render := λ _, Ok "<html></html>";
     html_to_pdf := λ _, Ok ();
     temp_pdf_exists := true |}.

(** The same world with another configuration, another line at the prompt,
    another renderer, another answer about the output name. *)
Definition with_values (values : list (option string * option string))
    (w : World) : World :=
  {| env_exists := env_exists w;
     template_exists := template_exists w;
     invoices := invoices w;
     today_year := today_year w;
     input_line := input_line w;
     which_node := which_node w;
     which_python := which_python w;
     which_python3 := which_python3 w;
     dotenv_values := values;
     number_file := number_file w;
     pdf_out_exists := pdf_out_exists w;
     render := render w;
     html_to_pdf := html_to_pdf w;
     temp_pdf_exists := temp_pdf_exists w |}.

Definition with_input (line : option string) (w : World) : World :=
  {| env_exists := env_exists w;
     template_exists := template_exists w;
     invoices := invoices w;
     today_year := today_year w;
     input_line := line;
     which_node := which_node w;
     which_python := which_python w;
     which_python3 := which_python3 w;
     dotenv_values := dotenv_values w;
     number_file := number_file w;
     pdf_out_exists := pdf_out_exists w;
     render := render w;
     html_to_pdf := html_to_pdf w;
     temp_pdf_exists := temp_pdf_exists w |}.

Definition with_render (r : gmap string string → result string) (w : World)
  : World :=
  {| env_exists := env_exists w;
     template_exists := template_exists w;
     invoices := invoices w;
     today_year := today_year w;
     input_line := input_line w;
     which_node := which_node w;
     which_python := which_python w;
     which_python3 := which_python3 w;
     dotenv_values := dotenv_values w;
     number_file := number_file w;
     pdf_out_exists := pdf_out_exists w;
     render := r;
     html_to_pdf := html_to_pdf w;
     temp_pdf_exists := temp_pdf_exists w |}.

Definition with_pdf_out_exists (f : string → bool) (w : World) : World :=
  {| env_exists := env_exists w;
     template_exists := template_exists w;
     invoices := invoices w;
     today_year := today_year w;
     input_line := input_line w;
     which_node := which_node w;
     which_python := which_python w;
     which_python3 := which_python3 w;
     dotenv_values := dotenv_values w;
     number_file := number_file w;
     pdf_out_exists := f;
     render := render w;
     html_to_pdf := html_to_pdf w;
     temp_pdf_exists := temp_pdf_exists w |}.

(** The two range tests of the prompt, on the month and the year that the
    line denotes. *)
Definition checked_target (m y : Z) : result InvoiceTarget :=
  if negb ((1 <=? m) && (m <=? 12)) then Raise (ValueError MsgMonthRange)
  else if negb ((1900 <=? y) && (y <=? 3000))
  then Raise (ValueError MsgYearInvalid)
  else Ok {| month := m; year := y |}.

(** What the template is rendered with in [fair_world]. *)
Definition fair_context : gmap string string :=
  <["DUE_DATE" := "2026-03-30"]>
    (<["CREATION_DATE" := "2026-03-01"]>
       (<["INVOICE_NUMBER" := "1"]>
          (list_to_map ((λ k, (k, "x")) <$> REQUIRED_ENV_KEYS)))).

(** ** Auxiliary notions for the proofs *)

Definition starts_with_digit (s : string) : bool :=
  match s with
  | String c _ => is_digit c
  | EmptyString => false
  end.

(** The first, the last character of [s] is not white space. *)
Definition head_kept (sp : ascii → bool) (s : string) : Prop :=
  match s with
  | String c _ => sp c = false
  | EmptyString => True
  end.

Fixpoint last_kept (sp : ascii → bool) (s : string) : Prop :=
  match s with
  | EmptyString => True
  | String c EmptyString => sp c = false
  | String _ s' => last_kept sp s'
  end.

(** The text a pattern accepts, with what may follow [.pdf]. *)
Definition invoice_text (A B N tail : string) : string :=
  "Invoice_" +:+ A +:+ "_" +:+ B +:+ "_#" +:+ N +:+ ".pdf" +:+ tail.

Fixpoint last_char (s : string) : option ascii :=
  match s with
  | EmptyString => None
  | String c EmptyString => Some c
  | String _ s' => last_char s'
  end.

(** ** The limit on conversions

    By default, CPython 3.11 and later refuse with a [ValueError] to
    convert a text of more than 4300 digits to an integer, and an integer
    of more than 4300 digits to a text. [py_int] and [py_str] convert at
    every size; these are the inputs on which they agree with [int] and
    [str] under that default. *)
Definition max_str_digits : Z := 4300.

(** [int(s)] does not meet the limit: [s] has at most 4300 characters. *)
Definition int_within_limit (s : string) : Prop :=
  Z.of_nat (String.length s) ≤ max_str_digits.

(** [str(n)] does not meet the limit: [n] has at most 4300 digits. *)
Definition str_within_limit (n : Z) : Prop :=
  Z.abs n < 10 ^ max_str_digits.

(** No conversion of a run of [main] meets the limit: the text of the
    counter file and the names of the directory are within it, and so is
    the number of the invoice. The line of the prompt is converted only
    when it has at most four digits in a row. *)
Definition conversions_within_limit (w : World) : Prop :=
  (∀ text, number_file w = Some text → int_within_limit (strip text))
  ∧ (∀ name, name ∈ invoices w → int_within_limit name)
  ∧ (∀ num, next_number (number_file w) (Some (invoices w)) = Ok num →
            str_within_limit num).

(** ** Notions for the properties beyond the specification *)

(** [esc in value], for the two characters backslash and [n]. *)
Fixpoint has_escaped_newline (value : string) : bool :=
  match value with
  | String c rest =>
      match rest with
      | String d _ =>
          (Ascii.eqb c "\" && Ascii.eqb d "n") || has_escaped_newline rest
      | EmptyString => false
      end
  | EmptyString => false
  end.

(** The context the template is rendered with ([main], lines 273 to 283):
    the configuration, then the three computed entries, which replace
    entries of the same names. *)
Definition render_context (env : gmap string string) (target : InvoiceTarget)
    (next_number : Z) : gmap string string :=
  <["DUE_DATE" := year_str target +:+ "-" +:+ month_str target +:+ "-30"]>
    (<["CREATION_DATE" := year_str target +:+ "-" +:+ month_str target
                          +:+ "-01"]>
       (<["INVOICE_NUMBER" := py_str next_number]> env)).

(** [fair_world] with another counter file, another directory. *)
Definition with_number_file (file : option string) (w : World) : World :=
  {| env_exists := env_exists w;
     template_exists := template_exists w;
     invoices := invoices w;
     today_year := today_year w;
     input_line := input_line w;
     which_node := which_node w;
     which_python := which_python w;
     which_python3 := which_python3 w;
     dotenv_values := dotenv_values w;
     number_file := file;
     pdf_out_exists := pdf_out_exists w;
     render := render w;
     html_to_pdf := html_to_pdf w;
     temp_pdf_exists := temp_pdf_exists w |}.

Definition with_invoices (entries : list string) (w : World) : World :=
  {| env_exists := env_exists w;
     template_exists := template_exists w;
     invoices := entries;
     today_year := today_year w;
     input_line := input_line w;
     which_node := which_node w;
     which_python := which_python w;
     which_python3 := which_python3 w;
     dotenv_values := dotenv_values w;
     number_file := number_file w;
     pdf_out_exists := pdf_out_exists w;
     render := render w;
     html_to_pdf := html_to_pdf w;
     temp_pdf_exists := temp_pdf_exists w |}.

(** ** Characters and digit strings *)

Lemma digit_value_range c : is_digit c = true → 0 ≤ digit_value c ≤ 9.
Proof.
  unfold is_digit, digit_value. intros H.
  apply andb_true_iff in H as [H1 H2].
  apply N.leb_le in H1, H2. lia.
Qed.

Lemma digit_not_space c :
  is_digit c = true → is_space c = false ∧ is_int_space c = false.
Proof.
  unfold is_digit, is_space, is_int_space. intros H.
  apply andb_true_iff in H as [H1 H2]. apply N.leb_le in H1, H2.
  split; repeat (apply orb_false_iff; split);
    first [apply andb_false_iff; (left + right); apply N.leb_gt; lia
          | apply N.eqb_neq; lia].
Qed.

Lemma int_space_is_space c : is_int_space c = true → is_space c = true.
Proof.
  unfold is_space, is_int_space.
  rewrite !orb_true_iff, !andb_true_iff, !N.leb_le, !N.eqb_eq. lia.
Qed.

Lemma digit_not_sign c :
  is_digit c = true → c ≠ "-"%char ∧ c ≠ "+"%char ∧ c ≠ "_"%char
    ∧ c ≠ "."%char ∧ c ≠ "/"%char ∧ c ≠ LF.
Proof.
  intros H. repeat split; intros ->; by vm_compute in H.
Qed.

Lemma numeral_from_range acc s :
  all_digits s = true → 0 ≤ acc →
  acc * 10 ^ Z.of_nat (String.length s) ≤ numeral_from acc s
    < (acc + 1) * 10 ^ Z.of_nat (String.length s).
Proof.
  revert acc. induction s as [|c s IH]; intros acc Hs Hacc; simpl.
  - lia.
  - apply andb_true_iff in Hs as [Hc Hs].
    pose proof (digit_value_range c Hc).
    specialize (IH (acc * 10 + digit_value c) Hs ltac:(lia)).
    rewrite Nat2Z.inj_succ, Z.pow_succ_r by lia.
    nia.
Qed.

Lemma numeral_range s :
  all_digits s = true → 0 ≤ numeral s < 10 ^ Z.of_nat (String.length s).
Proof.
  intros Hs. pose proof (numeral_from_range 0 s Hs ltac:(lia)).
  unfold numeral. lia.
Qed.

Lemma all_digits_cons c s :
  all_digits (String c s) = true ↔ is_digit c = true ∧ all_digits s = true.
Proof. unfold all_digits. simpl. apply andb_true_iff. Qed.

Lemma all_chars_app P s t :
  all_chars P (s +:+ t) = all_chars P s && all_chars P t.
Proof. induction s as [|c s IH]; simpl; [done|]. by rewrite IH, andb_assoc. Qed.

Lemma all_chars_impl (P Q : ascii → bool) s :
  (∀ c, P c = true → Q c = true) → all_chars P s = true → all_chars Q s = true.
Proof.
  intros HPQ. induction s as [|c s IH]; simpl; [done|].
  rewrite !andb_true_iff. intros [? ?]. auto.
Qed.

(** ** Literals, digit runs *)

Lemma eat_app lit s : eat lit (lit +:+ s) = Some s.
Proof.
  induction lit as [|a lit IH]; simpl; [done|]. by rewrite Ascii.eqb_refl.
Qed.

Lemma eat_Some lit s r : eat lit s = Some r → s = lit +:+ r.
Proof.
  revert s. induction lit as [|a lit IH]; intros s; simpl.
  - by intros [= ->].
  - destruct s as [|b s]; [done|].
    destruct (Ascii.eqb_spec a b) as [->|]; [|done].
    intros H. by rewrite (IH _ H).
Qed.

Lemma digits_exact_app ds rest :
  all_digits ds = true →
  digits_exact (String.length ds) (ds +:+ rest) = Some (ds, rest).
Proof.
  induction ds as [|c ds IH]; simpl; [done|].
  intros [Hc Hds]%all_digits_cons. by rewrite Hc, IH.
Qed.

Lemma digits_exact_Some n s ds rest :
  digits_exact n s = Some (ds, rest) →
  s = ds +:+ rest ∧ all_digits ds = true ∧ String.length ds = n.
Proof.
  revert s ds. induction n as [|n IH]; intros s ds; simpl.
  - by intros [= <- <-].
  - destruct s as [|c s]; [done|].
    destruct (is_digit c) eqn:Hc; [|done].
    destruct (digits_exact n s) as [[ds' rest']|] eqn:Hn; [|done].
    intros [= <- <-]. destruct (IH _ _ Hn) as (-> & Hds & <-).
    repeat split. by apply all_digits_cons.
Qed.

Lemma span_digits_app ds rest :
  all_digits ds = true → starts_with_digit rest = false →
  span_digits (ds +:+ rest) = (ds, rest).
Proof.
  intros Hds Hrest. induction ds as [|c ds IH]; simpl.
  - destruct rest as [|c rest]; [done|]. simpl in *. by rewrite Hrest.
  - apply all_digits_cons in Hds as [Hc Hds]. by rewrite Hc, IH.
Qed.

Lemma span_digits_spec s ds rest :
  span_digits s = (ds, rest) →
  s = ds +:+ rest ∧ all_digits ds = true ∧ starts_with_digit rest = false.
Proof.
  revert ds. induction s as [|c s IH]; intros ds; simpl.
  - by intros [= <- <-].
  - destruct (is_digit c) eqn:Hc.
    + destruct (span_digits s) as [ds' rest'] eqn:Hs.
      intros [= <- <-]. destruct (IH _ eq_refl) as (-> & Hds & Hrest).
      repeat split; [|done]. by apply all_digits_cons.
    + intros [= <- <-]. repeat split. simpl. done.
Qed.

(** ** White space *)

Section strip_facts.
Variable sp : ascii → bool.

Lemma lstrip_head_kept s : head_kept sp (lstrip_with sp s).
Proof.
  induction s as [|c s IH]; simpl; [done|].
  destruct (sp c) eqn:Hc; [done|]. simpl. done.
Qed.

Lemma rstrip_last_kept s : last_kept sp (rstrip_with sp s).
Proof.
  induction s as [|c s IH]; simpl; [done|].
  destruct (rstrip_with sp s) as [|d r] eqn:Hr.
  - destruct (sp c) eqn:Hc; simpl; done.
  - simpl. simpl in IH. done.
Qed.

Lemma rstrip_head_kept s : head_kept sp s → head_kept sp (rstrip_with sp s).
Proof.
  destruct s as [|c s]; simpl; [done|]. intros Hc.
  destruct (rstrip_with sp s); [rewrite Hc|]; simpl; done.
Qed.

Lemma lstrip_id s : head_kept sp s → lstrip_with sp s = s.
Proof. destruct s as [|c s]; simpl; [done|]. by intros ->. Qed.

Lemma rstrip_id s : last_kept sp s → rstrip_with sp s = s.
Proof.
  induction s as [|c s IH]; [done|].
  destruct s as [|d s].
  - simpl. by intros ->.
  - intros H. change (last_kept sp (String d s)) in H.
    change (rstrip_with sp (String c (String d s)))
      with (match rstrip_with sp (String d s) with
            | EmptyString => if sp c then EmptyString else String c EmptyString
            | r => String c r
            end).
    by rewrite (IH H).
Qed.

Lemma strip_id s : head_kept sp s → last_kept sp s → strip_with sp s = s.
Proof.
  intros Hh Hl. unfold strip_with. by rewrite (lstrip_id _ Hh), rstrip_id.
Qed.

Lemma strip_kept s :
  head_kept sp (strip_with sp s) ∧ last_kept sp (strip_with sp s).
Proof.
  split; [apply rstrip_head_kept, lstrip_head_kept|apply rstrip_last_kept].
Qed.

(** Text without white space, then one white space character. *)
Lemma rstrip_snoc s c :
  all_chars (λ a, negb (sp a)) s = true → sp c = true →
  rstrip_with sp (s +:+ String c EmptyString) = s.
Proof.
  intros Hs Hc. induction s as [|a s IH]; simpl.
  - by rewrite Hc.
  - simpl in Hs. apply andb_true_iff in Hs as [Ha Hs].
    rewrite (IH Hs). apply negb_true_iff in Ha.
    destruct s; [by rewrite Ha|done].
Qed.
End strip_facts.

Lemma head_kept_weaken (sp sp' : ascii → bool) s :
  (∀ c, sp c = true → sp' c = true) → head_kept sp' s → head_kept sp s.
Proof.
  intros Hsub. destruct s as [|c s]; simpl; [done|].
  intros Hc. destruct (sp c) eqn:E; [|done]. by rewrite (Hsub _ E) in Hc.
Qed.

Lemma last_kept_weaken (sp sp' : ascii → bool) s :
  (∀ c, sp c = true → sp' c = true) → last_kept sp' s → last_kept sp s.
Proof.
  intros Hsub. induction s as [|c s IH]; [done|].
  destruct s as [|d s]; [|exact IH].
  simpl. intros Hc. destruct (sp c) eqn:E; [|done]. by rewrite (Hsub _ E) in Hc.
Qed.

(** What [strip] leaves is left as it is by the trimming of [int]. *)
Lemma int_strip_of_strip text :
  strip_with is_int_space (strip text) = strip text.
Proof.
  destruct (strip_kept is_space text) as [Hh Hl]. apply strip_id.
  - eapply head_kept_weaken; [apply int_space_is_space|done].
  - eapply last_kept_weaken; [apply int_space_is_space|done].
Qed.

(** ** [int] on digit strings and on the text of integers *)

Lemma numeral_cons c s : numeral (String c s) = numeral_from (digit_value c) s.
Proof. reflexivity. Qed.

Lemma int_digits_all acc s :
  all_digits s = true → int_digits acc s = Some (numeral_from acc s).
Proof.
  revert acc. induction s as [|c s IH]; intros acc; simpl; [done|].
  intros [Hc Hs]%all_digits_cons. rewrite Hc. by apply IH.
Qed.

Lemma all_digits_last_kept sp s :
  (∀ c, is_digit c = true → sp c = false) →
  all_digits s = true → last_kept sp s.
Proof.
  intros Hsp. induction s as [|c s IH]; [done|].
  intros [Hc Hs]%all_digits_cons.
  destruct s as [|d s]; [by apply Hsp|by apply IH].
Qed.

Lemma split_sign_digit c r :
  is_digit c = true → split_sign (String c r) = (false, String c r).
Proof.
  intros Hc. destruct (digit_not_sign c Hc) as (Hm & Hp & _).
  unfold split_sign.
  destruct (Ascii.eqb_spec c "-"); [done|].
  by destruct (Ascii.eqb_spec c "+").
Qed.

Lemma py_int_numeral s :
  all_digits s = true → s ≠ EmptyString → py_int s = Ok (numeral s).
Proof.
  destruct s as [|c r]; [done|]. intros Hs _.
  pose proof Hs as [Hc Hr]%all_digits_cons.
  unfold py_int. rewrite strip_id.
  - rewrite (split_sign_digit _ _ Hc). rewrite Hc.
    by rewrite (int_digits_all _ _ Hr).
  - simpl. by apply digit_not_space.
  - apply all_digits_last_kept; [|done]. intros d Hd. by apply digit_not_space.
Qed.

Lemma digit_group_head s :
  digit_group s → ∃ c r, s = String c r ∧ is_digit c = true.
Proof. destruct 1; eauto. Qed.

(** [int_digits] reads the rest of a digit group to its end. *)
Lemma int_digits_group s :
  digit_group s → ∀ acc, ∃ v, int_digits acc s = Some v.
Proof.
  induction 1 as [c Hc|c s Hc Hs IH|c s Hc Hs IH]; intros acc; simpl;
    rewrite Hc.
  - eauto.
  - apply IH.
  - destruct (digit_group_head s Hs) as (d & r & -> & Hd).
    destruct (IH (acc * 10 + digit_value c)) as [v Hv].
    simpl in Hv. rewrite Hd in Hv. rewrite Hd. eauto.
Qed.

(** Conversely, what [int_digits] reads after a digit is the rest of a
    digit group. *)
Lemma int_digits_Some_group n : ∀ c r acc v,
  (String.length r ≤ n)%nat → is_digit c = true →
  int_digits acc r = Some v → digit_group (String c r).
Proof.
  induction n as [|n IH]; intros c r acc v Hlen Hc Hv.
  - destruct r; [by constructor|simpl in Hlen; lia].
  - destruct r as [|d r]; [by constructor|].
    simpl in Hv, Hlen. destruct (is_digit d) eqn:Hd.
    + apply group_digit; [done|]. eapply (IH d r); [lia|done|done].
    + destruct (Ascii.eqb_spec d "_") as [->|]; [|done].
      destruct r as [|e r]; [done|].
      destruct (is_digit e) eqn:He; [|done].
      apply group_underscore; [done|].
      simpl in Hlen. eapply (IH e r); [lia|done|done].
Qed.

Lemma py_int_trimmed_Ok s :
  strip_with is_int_space s = s →
  (∃ v, py_int s = Ok v) ↔ integer_text s.
Proof.
  intros Hs. unfold py_int. rewrite Hs. split.
  - intros [v Hv]. unfold split_sign in Hv.
    destruct s as [|c r]; [done|].
    destruct (Ascii.eqb_spec c "-") as [->|Hm];
      [|destruct (Ascii.eqb_spec c "+") as [->|Hp]].
    + destruct r as [|d r]; [done|]. destruct (is_digit d) eqn:Hd; [|done].
      destruct (int_digits (digit_value d) r) as [u|] eqn:Hu; [|done].
      exists "-", (String d r). split_and!; [by right; right| |done].
      by eapply int_digits_Some_group.
    + destruct r as [|d r]; [done|]. destruct (is_digit d) eqn:Hd; [|done].
      destruct (int_digits (digit_value d) r) as [u|] eqn:Hu; [|done].
      exists "+", (String d r). split_and!; [by right; left| |done].
      by eapply int_digits_Some_group.
    + destruct (is_digit c) eqn:Hc; [|done].
      destruct (int_digits (digit_value c) r) as [u|] eqn:Hu; [|done].
      exists "", (String c r). split_and!; [by left| |done].
      by eapply int_digits_Some_group.
  - intros (sign & body & Hsign & Hbody & ->).
    destruct (digit_group_head _ Hbody) as (c & r & -> & Hc).
    assert (∀ (negative : bool) (e : exn), ∃ v,
      match String c r with
      | String c r =>
          if is_digit c then
            match int_digits (digit_value c) r with
            | Some v => Ok (if negative then - v else v)
            | None => Raise e
            end
          else Raise e
      | EmptyString => Raise e
      end = Ok v) as Hbody_ok.
    { intros negative e. rewrite Hc.
      destruct (int_digits_group _ Hbody 0) as [v Hv].
      simpl in Hv. rewrite Hc in Hv.
      replace (0 * 10 + digit_value c) with (digit_value c) in Hv by lia.
      rewrite Hv. eauto. }
    destruct Hsign as [-> | [-> | ->]].
    + change ("" +:+ String c r) with (String c r).
      rewrite (split_sign_digit _ _ Hc). apply (Hbody_ok false).
    + apply (Hbody_ok false).
    + apply (Hbody_ok true).
Qed.

(** ** [str] and back *)

Lemma string_of_uint_digits d : all_digits (NilEmpty.string_of_uint d) = true.
Proof. induction d; simpl; [done|by apply all_digits_cons..]. Qed.

Lemma numeral_from_uint d : ∀ acc,
  numeral_from (Z.pos acc) (NilEmpty.string_of_uint d)
  = Z.pos (Pos.of_uint_acc d acc).
Proof.
  induction d; intros acc; simpl; [done|rewrite <- IHd; f_equal..];
    unfold digit_value; simpl; lia.
Qed.

Lemma numeral_uint d :
  numeral (NilEmpty.string_of_uint d) = Z.of_N (Pos.of_uint d).
Proof.
  unfold numeral.
  induction d; simpl; [done|exact IHd|apply (numeral_from_uint d)..].
Qed.

Lemma py_str_pos p : py_str (Z.pos p) = NilEmpty.string_of_uint (Pos.to_uint p).
Proof.
  unfold py_str. simpl. pose proof (DecimalPos.Unsigned.to_uint_nonnil p).
  by destruct (Pos.to_uint p).
Qed.

Lemma py_str_neg p :
  py_str (Z.neg p) = String "-" (NilEmpty.string_of_uint (Pos.to_uint p)).
Proof.
  unfold py_str. simpl. pose proof (DecimalPos.Unsigned.to_uint_nonnil p).
  by destruct (Pos.to_uint p).
Qed.

Lemma numeral_to_uint p :
  numeral (NilEmpty.string_of_uint (Pos.to_uint p)) = Z.pos p.
Proof. by rewrite numeral_uint, DecimalPos.Unsigned.of_to. Qed.

Lemma to_uint_nonempty p : NilEmpty.string_of_uint (Pos.to_uint p) ≠ "".
Proof.
  pose proof (DecimalPos.Unsigned.to_uint_nonnil p).
  by destruct (Pos.to_uint p).
Qed.

(** The text of a non-negative integer: digits, and it denotes the
    integer. *)
Lemma py_str_nonneg n :
  0 ≤ n → all_digits (py_str n) = true ∧ py_str n ≠ "" ∧ numeral (py_str n) = n.
Proof.
  destruct n as [|p|p]; [done| |lia]. intros _. rewrite py_str_pos.
  split_and!; [apply string_of_uint_digits|apply to_uint_nonempty
              |apply numeral_to_uint].
Qed.

Lemma py_str_no_space n :
  all_chars (λ a, negb (is_space a)) (py_str n) = true.
Proof.
  assert (∀ s, all_digits s = true
               → all_chars (λ a, negb (is_space a)) s = true) as Hd.
  { intros s. apply all_chars_impl. intros c Hc.
    by destruct (digit_not_space c Hc) as [-> _]. }
  destruct n as [|p|p]; [done|..].
  - rewrite py_str_pos. apply Hd, string_of_uint_digits.
  - rewrite py_str_neg. simpl. apply Hd, string_of_uint_digits.
Qed.

Lemma py_int_py_str n : py_int (py_str n) = Ok n.
Proof.
  destruct n as [|p|p]; [done|..].
  - destruct (py_str_nonneg (Z.pos p)) as (Hd & Hne & Hn); [lia|].
    by rewrite py_int_numeral, Hn.
  - rewrite py_str_neg.
    pose proof (string_of_uint_digits (Pos.to_uint p)) as Hd.
    pose proof (to_uint_nonempty p) as Hne.
    pose proof (numeral_to_uint p) as Hn.
    destruct (NilEmpty.string_of_uint (Pos.to_uint p)) as [|c r]; [done|].
    pose proof Hd as [Hc Hr]%all_digits_cons.
    unfold py_int. rewrite strip_id.
    + simpl. rewrite Hc, (int_digits_all _ _ Hr).
      rewrite numeral_cons in Hn. by rewrite Hn.
    + done.
    + change (last_kept is_int_space (String c r)).
      apply all_digits_last_kept; [|done]. intros d Hd'.
      by apply digit_not_space.
Qed.

Lemma strip_py_str_line n :
  strip (py_str n +:+ String LF EmptyString) = py_str n.
Proof.
  unfold strip, strip_with.
  assert (py_str n ≠ "") as Hne.
  { destruct n; [done|rewrite py_str_pos; apply to_uint_nonempty
                |by rewrite py_str_neg]. }
  pose proof (py_str_no_space n) as Hns.
  destruct (py_str n) as [|c r] eqn:E; [done|].
  rewrite lstrip_id.
  - by apply rstrip_snoc.
  - simpl in *. apply andb_true_iff in Hns as [Hc _]. by apply negb_true_iff.
Qed.

(** ** The persisted counter *)

Lemma read_counter_text text :
  strip text ≠ "" →
  _read_last_invoice_number (Some text)
  = match py_int (strip text) with
    | Raise (ValueError _) => Raise (ValueError (MsgInvalidCounter (strip text)))
    | r => r
    end.
Proof. unfold _read_last_invoice_number. by destruct (strip text). Qed.

Lemma py_int_raises_ValueError s e :
  py_int s = Raise e → e = ValueError (MsgInvalidLiteral s).
Proof.
  unfold py_int. destruct (split_sign _) as [negative [|c r]]; [congruence|].
  destruct (is_digit c); [|congruence].
  destruct (int_digits _ _); congruence.
Qed.

(** C10. Writing an integer [n] to the counter file and then reading the
    counter from that file yields [n] back: this holds for every integer of
    at most 4300 digits, so for every non-negative one of that size, which
    is the range in which [str] writes the number and [int] reads it back
    by default. The file read is the one the write event leaves behind,
    whatever the files were before. *)
Theorem counter_roundtrip (n : Z) (files : path → option string) :
  str_within_limit n →
  _read_last_invoice_number
    (files_after (trace (_write_last_invoice_number NumberPath n)) files
       NumberPath)
  = Ok n.
Proof.
  intros _.
  unfold files_after, _write_last_invoice_number, emit.
  cbn [trace foldl apply_event]. rewrite fn_lookup_insert.
  rewrite read_counter_text; rewrite strip_py_str_line.
  - by rewrite py_int_py_str.
  - destruct n; [done|rewrite py_str_pos; apply to_uint_nonempty
                |by rewrite py_str_neg].
Qed.

Lemma counter_roundtrip_witness :
  _read_last_invoice_number
    (files_after (trace (_write_last_invoice_number NumberPath 41))
       (λ _, Some "40") NumberPath)
  = Ok 41.
Proof. apply (counter_roundtrip 41 (λ _, Some "40")). by vm_compute. Defined.

(** C4, as stated, fails: a counter file that is present and empty holds
    no integer, and reading it returns zero instead of failing. *)
Lemma empty_counter_file_reads_zero :
  ¬ integer_text ""
  ∧ _read_last_invoice_number (Some "") = Ok 0
  ∧ ¬ (∃ e, _read_last_invoice_number (Some "") = Raise e).
Proof.
  split_and!.
  - intros (sign & body & _ & Hbody & Heq).
    destruct (digit_group_head _ Hbody) as (c & r & -> & _).
    by destruct sign.
  - reflexivity.
  - by intros [e He].
Qed.

(** C4, amended. Reading the counter file: an absent file reads as zero,
    and so does a file that holds nothing but white space; a file whose
    text, white space around it removed, is not empty and is not the text
    of an integer makes the read fail with a [ValueError] that carries this
    text; the text of an integer, of at most 4300 characters, is read
    without an error. *)
Theorem read_counter_file (file : option string) (text : string) :
  (file = None → _read_last_invoice_number file = Ok 0)
  ∧ (file = Some text → strip text = "" →
     _read_last_invoice_number file = Ok 0)
  ∧ (file = Some text → strip text ≠ "" → ¬ integer_text (strip text) →
     _read_last_invoice_number file
     = Raise (ValueError (MsgInvalidCounter (strip text))))
  ∧ (file = Some text → integer_text (strip text) →
     int_within_limit (strip text) →
     ∃ n, _read_last_invoice_number file = Ok n).
Proof.
  split_and!.
  - by intros ->.
  - intros -> Hraw. unfold _read_last_invoice_number. by rewrite Hraw.
  - intros -> Hraw Hnot. rewrite read_counter_text by done.
    destruct (py_int (strip text)) as [v|e] eqn:Hint.
    + exfalso. apply Hnot.
      apply py_int_trimmed_Ok; [apply int_strip_of_strip|eauto].
    + by rewrite (py_int_raises_ValueError _ _ Hint).
  - intros -> Htext _.
    assert (strip text ≠ "") as Hraw.
    { destruct Htext as (sign & body & _ & Hbody & ->).
      destruct (digit_group_head _ Hbody) as (c & r & -> & _).
      by destruct sign. }
    rewrite read_counter_text by done.
    apply py_int_trimmed_Ok in Htext as [v ->]; [eauto|].
    apply int_strip_of_strip.
Qed.

Lemma read_counter_file_witness :
  _read_last_invoice_number None = Ok 0
  ∧ _read_last_invoice_number (Some " ") = Ok 0
  ∧ _read_last_invoice_number (Some "abc")
    = Raise (ValueError (MsgInvalidCounter "abc"))
  ∧ ∃ n, _read_last_invoice_number (Some "+1_000") = Ok n.
Proof.
  split_and!.
  - by apply (proj1 (read_counter_file None "")).
  - by apply (proj1 (proj2 (read_counter_file (Some " ") " "))).
  - apply (proj1 (proj2 (proj2 (read_counter_file (Some "abc") "abc"))));
      [reflexivity|done|].
    intros (sign & body & Hsign & Hbody & Heq).
    destruct Hsign as [-> | [-> | ->]]; vm_compute in Heq; [|done..].
    subst body. by inversion Hbody.
  - apply (proj2 (proj2 (proj2
             (read_counter_file (Some "+1_000") "+1_000"))));
      [reflexivity| |by vm_compute].
    exists "+", "1_000". split_and!; [by right; left| |reflexivity].
    apply group_underscore; [done|].
    repeat (first [by apply group_one | apply group_digit; [done|]]).
Defined.

(** ** The two patterns of invoice file names *)

Lemma append_assoc (a b c : string) : (a +:+ b) +:+ c = a +:+ (b +:+ c).
Proof. induction a as [|x a IH]; [done|]. simpl. f_equal. exact IH. Qed.

Lemma last_char_snoc s c : last_char (s +:+ String c "") = Some c.
Proof.
  induction s as [|a s IH]; [done|].
  simpl. destruct (s +:+ String c "") eqn:E; [by destruct s|done].
Qed.

Lemma last_char_app s t : t ≠ "" → last_char (s +:+ t) = last_char t.
Proof.
  intros Ht. induction s as [|a s IH]; [done|].
  simpl. destruct (s +:+ t) eqn:E; [by destruct s, t|done].
Qed.

Lemma ends_with_last suffix s :
  suffix ≠ "" → ends_with suffix s = true → last_char s = last_char suffix.
Proof.
  intros Hne. induction s as [|a s IH].
  - by destruct suffix.
  - intros H.
    change (ends_with suffix (String a s))
      with (String.eqb (String a s) suffix || ends_with suffix s) in H.
    apply orb_true_iff in H as [H|H].
    + by apply String.eqb_eq in H as <-.
    + rewrite <- (IH H). destruct s; [|done]. by destruct suffix.
Qed.

Lemma ends_with_app suffix p t :
  ends_with suffix t = true → ends_with suffix (p +:+ t) = true.
Proof.
  intros Ht. induction p as [|a p IH]; [done|].
  simpl. rewrite IH. apply orb_true_r.
Qed.

Lemma ends_with_refl suffix : ends_with suffix suffix = true.
Proof.
  destruct suffix as [|a suffix]; [done|].
  change (String.eqb (String a suffix) (String a suffix)
          || ends_with (String a suffix) suffix = true).
  by rewrite String.eqb_refl.
Qed.

Lemma digits_exact_short ds c rest k :
  all_digits ds = true → is_digit c = false →
  digits_exact (String.length ds + S k) (ds +:+ String c rest) = None.
Proof.
  intros Hds Hc. induction ds as [|d ds IH]; simpl.
  - by rewrite Hc.
  - apply all_digits_cons in Hds as [Hd Hds]. by rewrite Hd, IH.
Qed.

Lemma invoice_pattern_text A B N tail :
  all_digits A = true → all_digits B = true →
  all_digits N = true → N ≠ "" → at_dollar tail = true →
  invoice_pattern (String.length A) (String.length B)
    (invoice_text A B N tail) = Some (A, B, N).
Proof.
  intros HA HB HN Hne Htail. unfold invoice_pattern, invoice_text.
  rewrite eat_app. cbn [mbind option_bind].
  rewrite (digits_exact_app _ _ HA). cbn [mbind option_bind].
  rewrite eat_app. cbn [mbind option_bind].
  rewrite (digits_exact_app _ _ HB). cbn [mbind option_bind].
  rewrite eat_app. cbn [mbind option_bind].
  rewrite (span_digits_app _ _ HN) by done.
  destruct N as [|c N]; [done|].
  rewrite eat_app. cbn [mbind option_bind]. by rewrite Htail.
Qed.

Lemma at_dollar_cases tail :
  at_dollar tail = true → tail = "" ∨ tail = String LF "".
Proof.
  destruct tail as [|c [|d tail]]; simpl; [by left| |done].
  intros ->%Ascii.eqb_eq. by right.
Qed.

Lemma invoice_pattern_Some w1 w2 name A B N :
  invoice_pattern w1 w2 name = Some (A, B, N) →
  (all_digits A = true ∧ String.length A = w1)
  ∧ (all_digits B = true ∧ String.length B = w2)
  ∧ (all_digits N = true ∧ N ≠ "")
  ∧ ∃ tail, at_dollar tail = true ∧ name = invoice_text A B N tail.
Proof.
  unfold invoice_pattern, invoice_text. intros H.
  destruct (eat "Invoice_" name) as [r1|] eqn:E1; [|done].
  cbn [mbind option_bind] in H.
  destruct (digits_exact w1 r1) as [[g1 r2]|] eqn:E2; [|done].
  cbn [mbind option_bind] in H.
  destruct (eat "_" r2) as [r3|] eqn:E3; [|done].
  cbn [mbind option_bind] in H.
  destruct (digits_exact w2 r3) as [[g2 r4]|] eqn:E4; [|done].
  cbn [mbind option_bind] in H.
  destruct (eat "_#" r4) as [r5|] eqn:E5; [|done].
  cbn [mbind option_bind] in H.
  destruct (span_digits r5) as [g3 r6] eqn:E6.
  destruct g3 as [|c g3]; [done|].
  destruct (eat ".pdf" r6) as [r7|] eqn:E7; [|done].
  cbn [mbind option_bind] in H.
  destruct (at_dollar r7) eqn:E8; [|done].
  injection H as <- <- <-.
  apply eat_Some in E1, E3, E5, E7.
  apply digits_exact_Some in E2 as (E2 & ? & ?), E4 as (E4 & ? & ?).
  apply span_digits_spec in E6 as (E6 & ? & _).
  split_and!; try done.
  exists r7. split; [done|]. by subst.
Qed.

Lemma invoice_text_tail A B N tail :
  invoice_text A B N "" +:+ tail = invoice_text A B N tail.
Proof. unfold invoice_text. by rewrite !append_assoc. Qed.

Lemma parse_current_text Y M N tail :
  fields Y M N → at_dollar tail = true →
  _parse_invoice_filename (invoice_text Y M N tail)
  = Ok (Some (numeral Y), Some (numeral M), Some (numeral N)).
Proof.
  intros ((HY & HlY) & (HM & HlM) & (HN & Hne)) Htail.
  pose proof (invoice_pattern_text Y M N tail HY HM HN Hne Htail) as Hp.
  rewrite HlY, HlM in Hp.
  unfold _parse_invoice_filename, pattern_new. rewrite Hp.
  rewrite !py_int_numeral; try done.
  - by destruct M.
  - by destruct Y.
Qed.

Lemma pattern_new_legacy_text Y M N tail :
  fields Y M N → pattern_new (invoice_text M Y N tail) = None.
Proof.
  intros (_ & (HM & HlM) & _).
  unfold pattern_new, invoice_pattern, invoice_text.
  rewrite eat_app. cbn [mbind option_bind].
  pose proof (digits_exact_short M "_"
                (Y +:+ "_#" +:+ N +:+ ".pdf" +:+ tail) 1 HM eq_refl) as Hd.
  rewrite HlM in Hd. change (2 + 2)%nat with 4%nat in Hd.
  change (String "_" ?s) with ("_" +:+ s) in Hd.
  by rewrite Hd.
Qed.

Lemma parse_legacy_text Y M N tail :
  fields Y M N → at_dollar tail = true →
  _parse_invoice_filename (invoice_text M Y N tail)
  = Ok (Some (numeral Y), Some (numeral M), Some (numeral N)).
Proof.
  intros HF Htail. pose proof HF as ((HY & HlY) & (HM & HlM) & (HN & Hne)).
  pose proof (invoice_pattern_text M Y N tail HM HY HN Hne Htail) as Hp.
  rewrite HlY, HlM in Hp.
  unfold _parse_invoice_filename.
  rewrite (pattern_new_legacy_text _ _ _ _ HF). unfold pattern_old. rewrite Hp.
  rewrite !py_int_numeral; try done.
  - by destruct Y.
  - by destruct M.
Qed.

(** What the parser answers, for every name: all-absent, or the fields of
    a name that one of the patterns matched. *)
Lemma parse_cases name :
  _parse_invoice_filename name = Ok all_absent
  ∨ ∃ Y M N tail,
      fields Y M N ∧ at_dollar tail = true
      ∧ (name = invoice_text Y M N tail ∨ name = invoice_text M Y N tail)
      ∧ _parse_invoice_filename name
        = Ok (Some (numeral Y), Some (numeral M), Some (numeral N)).
Proof.
  destruct (pattern_new name) as [[[Y M] N]|] eqn:Hnew.
  - right. apply invoice_pattern_Some in Hnew as (HY & HM & HN & tail & Ht & ->).
    exists Y, M, N, tail. split_and!; try done; [by left|].
    by apply parse_current_text.
  - destruct (pattern_old name) as [[[M Y] N]|] eqn:Hold.
    + right.
      apply invoice_pattern_Some in Hold as (HM & HY & HN & tail & Ht & ->).
      exists Y, M, N, tail. split_and!; try done; [by right|].
      by apply parse_legacy_text.
    + left. unfold _parse_invoice_filename. by rewrite Hnew, Hold.
Qed.




(** ** Names the directory scan selects *)

Lemma glob_last_char name :
  glob_invoice_pdf name = true → last_char name = Some "f"%char.
Proof.
  unfold glob_invoice_pdf.
  destruct (eat "Invoice_" name) as [rest|] eqn:E; [|done].
  apply eat_Some in E as ->. intros H.
  assert (rest ≠ "") as Hne by (by destruct rest).
  rewrite (last_char_app _ _ Hne). by rewrite (ends_with_last ".pdf" rest).
Qed.

Lemma glob_invoice_text A B N : glob_invoice_pdf (invoice_text A B N "") = true.
Proof.
  unfold glob_invoice_pdf, invoice_text. rewrite eat_app.
  do 5 apply ends_with_app. apply ends_with_refl.
Qed.

Lemma glob_tail A B N tail :
  at_dollar tail = true → glob_invoice_pdf (invoice_text A B N tail) = true →
  tail = "".
Proof.
  intros [-> | ->]%at_dollar_cases; [done|].
  intros H%glob_last_char. rewrite <- invoice_text_tail in H.
  by rewrite last_char_snoc in H.
Qed.

Lemma numeral_nonneg s : all_digits s = true → 0 ≤ numeral s.
Proof. intros H. by destruct (numeral_range s H). Qed.

(** Among the names the scan selects, the parser reads exactly the invoice
    file names. *)
Lemma parse_selected name y m n :
  glob_invoice_pdf name = true →
  (_parse_invoice_filename name = Ok (Some y, Some m, Some n)
   ↔ invoice_filename name y m n).
Proof.
  intros Hglob. split.
  - intros Hparse. destruct (parse_cases name) as [H|H];
      [unfold all_absent in H; congruence|].
    destruct H as (Y & M & N & tail & HF & Ht & Hname & Hp).
    rewrite Hp in Hparse. injection Hparse as <- <- <-.
    exists Y, M, N. split_and!; try done.
    destruct Hname as [-> | ->]; [left|right];
      by rewrite (glob_tail _ _ _ _ Ht Hglob).
  - intros (Y & M & N & HF & Hname & -> & -> & ->).
    destruct Hname as [-> | ->].
    + by apply (parse_current_text Y M N "").
    + by apply (parse_legacy_text Y M N "").
Qed.

Lemma invoice_filename_selected name y m n :
  invoice_filename name y m n → glob_invoice_pdf name = true.
Proof.
  intros (Y & M & N & _ & [-> | ->] & _).
  - apply (glob_invoice_text Y M N).
  - apply (glob_invoice_text M Y N).
Qed.

Lemma parse_shape name :
  ∃ t, _parse_invoice_filename name = Ok t
       ∧ (t = all_absent ∨ ∃ y m n, t = (Some y, Some m, Some n) ∧ 0 ≤ n).
Proof.
  destruct (parse_cases name) as [H|H]; [eauto|].
  destruct H as (Y & M & N & tail & HF & _ & _ & Hp).
  eexists. split; [done|]. right. do 3 eexists. split; [done|].
  apply numeral_nonneg, HF.
Qed.

Lemma elem_of_glob name entries :
  name ∈ glob (Some entries) ↔ name ∈ entries ∧ glob_invoice_pdf name = true.
Proof.
  unfold glob. rewrite !list_elem_of_In, filter_In. done.
Qed.

(** ** Discovery of the generated targets *)

#[local] Instance tuple_le_total : Total tuple_le.
Proof. intros [] []. unfold tuple_le. simpl. lia. Qed.

#[local] Instance tuple_le_trans : Transitive tuple_le.
Proof. intros [] [] []. unfold tuple_le. simpl. lia. Qed.

Lemma StronglySorted_strict (l : list (Z * Z)) :
  StronglySorted tuple_le l → NoDup l →
  StronglySorted (λ a b, tuple_le a b ∧ a ≠ b) l.
Proof.
  induction 1 as [|a l Hl IH Ha]; intros Hnd; [constructor|].
  apply NoDup_cons in Hnd as [Hnotin Hnd].
  constructor; [by apply IH|].
  apply Forall_forall. intros b Hb. split.
  - by eapply Forall_forall in Ha.
  - intros ->. done.
Qed.

Lemma list_generated_targets_loop entries :
  ∃ targets : gset (Z * Z),
    _list_generated_targets (Some entries)
    = Ok ((λ ym, {| month := ym.2; year := ym.1 |})
          <$> merge_sort tuple_le (elements targets))
    ∧ ∀ y m, (y, m) ∈ targets ↔
        1 ≤ m ≤ 12
        ∧ ∃ name n, name ∈ entries ∧ invoice_filename name y m n.
Proof.
  unfold _list_generated_targets.
  match goal with |- context [for_each _ _ ?b] => set (body := b) end.
  assert (∀ names (targets0 : gset (Z * Z)),
    (∀ name, name ∈ names → glob_invoice_pdf name = true) →
    ∃ targets, for_each names targets0 body = Ok targets
      ∧ ∀ y m, (y, m) ∈ targets ↔
          (y, m) ∈ targets0
          ∨ (1 ≤ m ≤ 12
             ∧ ∃ name n, name ∈ names ∧ invoice_filename name y m n))
    as Hloop.
  { induction names as [|p names IH]; intros targets0 Hsel.
    - exists targets0. split; [done|]. intros y m. split; [by left|].
      intros [?|(_ & name & n & Hin & _)]; [done|]. by apply elem_of_nil in Hin.
    - assert (glob_invoice_pdf p = true) as Hp by (apply Hsel; left).
      assert (∀ name, name ∈ names → glob_invoice_pdf name = true) as Hsel'
        by (intros; apply Hsel; by right).
      cbn [for_each]. unfold body at 1.
      destruct (parse_shape p) as (t & Ht & [-> | (y0 & m0 & n0 & -> & _)]);
        rewrite Ht; unfold all_absent; cbn [rbind].
      + destruct (IH targets0 Hsel') as (targets & -> & Hiff).
        exists targets. split; [done|]. intros y m. rewrite Hiff.
        split; (intros [?|(Hm & name & n & Hin & Hname)]; [by left|right]);
          (split; [done|]); exists name, n; split; try done.
        * by right.
        * apply elem_of_cons in Hin as [-> | Hin]; [|done].
          apply (parse_selected _ _ _ _ Hp) in Hname.
          unfold all_absent in Ht. congruence.
      + apply (parse_selected _ _ _ _ Hp) in Ht as Hinv.
        destruct ((1 <=? m0) && (m0 <=? 12)) eqn:Hrange; cbn [rbind].
        * destruct (IH ({[(y0, m0)]} ∪ targets0) Hsel') as (targets & -> & Hiff).
          exists targets. split; [done|]. intros y m. rewrite Hiff.
          rewrite elem_of_union, elem_of_singleton.
          apply andb_true_iff in Hrange as [H1 H2].
          apply Z.leb_le in H1, H2.
          split.
          -- intros [[[= -> ->]|?]|(Hm & name & n & Hin & Hname)].
             ++ right. split; [lia|]. exists p, n0. split; [by left|done].
             ++ by left.
             ++ right. split; [done|]. exists name, n. split; [by right|done].
          -- intros [?|(Hm & name & n & Hin & Hname)]; [by left; right|].
             apply elem_of_cons in Hin as [-> | Hin].
             ++ left; left.
                apply (parse_selected _ _ _ _ Hp) in Hname. congruence.
             ++ right. split; [done|]. by exists name, n.
        * destruct (IH targets0 Hsel') as (targets & -> & Hiff).
          exists targets. split; [done|]. intros y m. rewrite Hiff.
          split; (intros [?|(Hm & name & n & Hin & Hname)]; [by left|right]);
            (split; [done|]); exists name, n; split; try done.
          -- by right.
          -- apply elem_of_cons in Hin as [-> | Hin]; [|done].
             apply (parse_selected _ _ _ _ Hp) in Hname.
             assert (m = m0) as -> by congruence.
             apply andb_false_iff in Hrange as [H|H]; apply Z.leb_gt in H; lia. }
  destruct (Hloop (glob (Some entries)) ∅) as (targets & -> & Hiff).
  { intros name Hin. by apply elem_of_glob in Hin as [_ ?]. }
  exists targets. split; [done|]. intros y m. rewrite Hiff.
  split.
  - intros [?|(Hm & name & n & Hin & Hname)]; [set_solver|].
    split; [done|]. exists name, n. by apply elem_of_glob in Hin as [? _].
  - intros (Hm & name & n & Hin & Hname). right. split; [done|].
    exists name, n. split; [|done]. apply elem_of_glob. split; [done|].
    by eapply invoice_filename_selected.
Qed.

(** The targets discovery returns, as a set: shared by the results about
    discovery and about the runs of [main]. *)
Lemma list_generated_targets_elem (entries : list string) :
  ∃ targets,
    _list_generated_targets (Some entries) = Ok targets
    ∧ ∀ t, t ∈ targets ↔
        1 ≤ month t ≤ 12
        ∧ ∃ name n,
            name ∈ entries ∧ invoice_filename name (year t) (month t) n.
Proof.
  destruct (list_generated_targets_loop entries) as (targets & -> & Hiff).
  eexists. split; [done|].
  intros [m y]. rewrite list_elem_of_fmap. simpl. rewrite <- Hiff. split.
  - intros ([y' m'] & [= -> ->] & Hin).
    by rewrite merge_sort_Permutation, elem_of_elements in Hin.
  - intros Hin. exists (y, m). split; [done|].
    by rewrite merge_sort_Permutation, elem_of_elements.
Qed.

(** C2. Discovery over a directory returns the list of the (year, month)
    pairs of its invoice file names whose month lies in 1..12: each pair
    once, in ascending order by year then month. Every other name is passed
    over without an error, and an absent directory yields the empty list. *)
Theorem list_generated_targets_spec (entries : list string) :
  _list_generated_targets None = Ok []
  ∧ ∃ targets,
      _list_generated_targets (Some entries) = Ok targets
      ∧ StronglySorted target_lt targets
      ∧ ∀ t, t ∈ targets ↔
          1 ≤ month t ≤ 12
          ∧ ∃ name n,
              name ∈ entries ∧ invoice_filename name (year t) (month t) n.
Proof.
  split; [done|].
  destruct (list_generated_targets_elem entries) as (targets & Heq & Hiff).
  exists targets. split_and!; [done| |done].
  destruct (list_generated_targets_loop entries) as (pairs & Heq' & _).
  rewrite Heq in Heq'. injection Heq' as ->.
  eapply StronglySorted_fmap;
    [|apply StronglySorted_strict;
       [apply StronglySorted_merge_sort; apply _|]].
  - intros [y1 m1] [y2 m2] [Hle Hne]. unfold tuple_le, target_lt in *.
    simpl in *. destruct (decide (m1 = m2)) as [->|]; [|lia].
    assert (y1 ≠ y2) by congruence. lia.
  - rewrite merge_sort_Permutation. apply NoDup_elements.
Qed.

Example discovery_of_three_files :
  _list_generated_targets
    (Some ["Invoice_2024_01_#3.pdf"; "Invoice_01_2025_#7.pdf";
           "not_an_invoice.pdf"])
  = Ok [ {| month := 1; year := 2024 |}; {| month := 1; year := 2025 |} ].
Proof. vm_compute. reflexivity. Qed.

(** ** Reconciliation of the sequence number *)

Lemma max_invoice_number_spec entries :
  ∃ v, _max_invoice_number_from_pdfs (Some entries) = Ok v
       ∧ max_sequence_number entries v.
Proof.
  unfold _max_invoice_number_from_pdfs.
  match goal with |- context [for_each _ _ ?b] => set (body := b) end.
  assert (∀ names max0,
    (∀ name, name ∈ names → glob_invoice_pdf name = true) →
    ∃ v, for_each names max0 body = Ok v
      ∧ max0 ≤ v
      ∧ (∀ name y m n,
           name ∈ names → invoice_filename name y m n → n ≤ v)
      ∧ ((∃ name y m, name ∈ names ∧ invoice_filename name y m v)
         ∨ (v = max0
            ∧ ∀ name y m n,
                name ∈ names → invoice_filename name y m n → n < max0)))
    as Hloop.
  { induction names as [|p names IH]; intros max0 Hsel.
    - exists max0. split_and!; [done|lia| |right; split; [done|]];
        intros name y m n Hin; by apply elem_of_nil in Hin.
    - assert (glob_invoice_pdf p = true) as Hp by (apply Hsel; left).
      assert (∀ name, name ∈ names → glob_invoice_pdf name = true) as Hsel'
        by (intros; apply Hsel; by right).
      cbn [for_each]. unfold body at 1.
      destruct (parse_shape p) as (t & Ht & [-> | (y0 & m0 & n0 & -> & _)]);
        rewrite Ht; unfold all_absent; cbn [rbind].
      + assert (∀ y m n, ¬ invoice_filename p y m n) as Hnot.
        { intros y m n Hname. apply (parse_selected _ _ _ _ Hp) in Hname.
          unfold all_absent in Ht. congruence. }
        destruct (IH max0 Hsel') as (v & -> & Hle & Hub & Hatt).
        exists v. split_and!; [done|done| |].
        * intros name y m n [-> | Hin]%elem_of_cons Hname; [|by eapply Hub].
          by apply Hnot in Hname.
        * destruct Hatt as [(name & y & m & Hin & Hname)|[-> Hlt]].
          -- left. exists name, y, m. split; [by right|done].
          -- right. split; [done|].
             intros name y m n [-> | Hin]%elem_of_cons Hname;
               [by apply Hnot in Hname|by eapply Hlt].
      + apply (parse_selected _ _ _ _ Hp) in Ht as Hinv.
        assert (∀ y m n, invoice_filename p y m n → n = n0) as Hp0.
        { intros y m n Hname. apply (parse_selected _ _ _ _ Hp) in Hname.
          congruence. }
        destruct (n0 >? max0) eqn:Hgt; cbn [rbind].
        * apply Z.gtb_lt in Hgt.
          destruct (IH n0 Hsel') as (v & -> & Hle & Hub & Hatt).
          exists v. split_and!; [done|lia| |].
          -- intros name y m n [-> | Hin]%elem_of_cons Hname;
               [|by eapply Hub].
             by rewrite (Hp0 _ _ _ Hname).
          -- left. destruct Hatt as [(name & y & m & Hin & Hname)|[-> _]].
             ++ exists name, y, m. split; [by right|done].
             ++ exists p, y0, m0. split; [by left|done].
        * assert (n0 ≤ max0) as Hle0.
          { destruct (Z.gtb_spec n0 max0); [done|lia]. }
          destruct (IH max0 Hsel') as (v & -> & Hle & Hub & Hatt).
          exists v. split_and!; [done|done| |].
          -- intros name y m n [-> | Hin]%elem_of_cons Hname;
               [|by eapply Hub].
             rewrite (Hp0 _ _ _ Hname). lia.
          -- destruct Hatt as [(name & y & m & Hin & Hname)|[-> Hlt]].
             ++ left. exists name, y, m. split; [by right|done].
             ++ destruct (decide (n0 = max0)) as [->|Hne].
                ** left. exists p, y0, m0. split; [by left|done].
                ** right. split; [done|].
                   intros name y m n [-> | Hin]%elem_of_cons Hname;
                     [|by eapply Hlt].
                   rewrite (Hp0 _ _ _ Hname). lia. }
  destruct (Hloop (glob (Some entries)) 0) as (v & -> & Hle & Hub & Hatt).
  { intros name Hin. by apply elem_of_glob in Hin as [_ ?]. }
  assert (∀ name y m n, name ∈ entries → invoice_filename name y m n →
                        name ∈ glob (Some entries)) as Hglob.
  { intros name y m n Hin Hname. apply elem_of_glob. split; [done|].
    by eapply invoice_filename_selected. }
  exists v. split; [done|]. split.
  - intros name y m n Hin Hname. apply (Hub name y m n); [|done].
    by eapply Hglob.
  - destruct Hatt as [(name & y & m & Hin & Hname)|[-> Hlt]].
    + left. exists name, y, m. by apply elem_of_glob in Hin as [? _].
    + right. split; [done|]. intros name y m n Hin Hname.
      assert (n < 0) by (eapply Hlt; [by eapply Hglob|done]).
      assert (0 ≤ n); [|lia].
      destruct Hname as (Y & M & N & HF & _ & _ & _ & ->).
      apply numeral_nonneg, HF.
Qed.

(** C1. For every counter value the counter file holds and every set of
    names in the output directory, the next sequence number is
    [max c v + 1], where [c] is the number the text of the file denotes,
    zero when the file is absent, and [v] is the greatest sequence number
    carried by an invoice file name of the directory, zero when there is
    none. The text of the file is a string of decimal digits, at most 4300
    of them, with or without white space around it. With the counter file
    holding 5 and a file name carrying 9 the next number is 10; with the
    file holding 9 and a name carrying 5 it is 10 as well; with the counter
    file absent and the numbers 2 and 4 it is 5. *)
Theorem next_number_reconciles (file : option string) (entries : list string)
    (text : string) :
  (∃ v, max_sequence_number entries v
        ∧ (file = None →
           next_number file (Some entries) = Ok (Z.max 0 v + 1))
        ∧ (file = Some text → all_digits (strip text) = true →
           strip text ≠ "" → int_within_limit (strip text) →
           next_number file (Some entries)
           = Ok (Z.max (numeral (strip text)) v + 1)))
  ∧ next_number (Some "5") (Some ["Invoice_2024_01_#9.pdf"]) = Ok 10
  ∧ next_number (Some "9") (Some ["Invoice_2024_01_#5.pdf"]) = Ok 10
  ∧ next_number None
      (Some ["Invoice_2024_01_#2.pdf"; "Invoice_2024_02_#4.pdf"]) = Ok 5.
Proof.
  split_and!; [|by vm_compute..].
  destruct (max_invoice_number_spec entries) as (v & Hv & Hmax).
  exists v. split; [done|]. split.
  - intros ->. unfold next_number. by rewrite Hv.
  - intros -> Hdigits Hraw _. unfold next_number.
    rewrite read_counter_text by done.
    by rewrite (py_int_numeral _ Hdigits Hraw), Hv.
Qed.

Lemma next_number_reconciles_witness :
  ∃ v, max_sequence_number ["Invoice_03_2023_#7.pdf"; "notes.txt"] v
       ∧ next_number (Some " 12 ")
           (Some ["Invoice_03_2023_#7.pdf"; "notes.txt"])
         = Ok (Z.max 12 v + 1).
Proof.
  destruct (proj1 (next_number_reconciles (Some " 12 ")
                     ["Invoice_03_2023_#7.pdf"; "notes.txt"] " 12 "))
    as (v & Hmax & _ & Hnext).
  exists v. split; [done|].
  apply Hnext; [reflexivity|reflexivity|by vm_compute|by vm_compute].
Defined.

(** ** The prompt *)

Lemma prompt_trace line default_year :
  trace (_prompt_target line default_year) = [EvInput].
Proof.
  unfold _prompt_target. destruct line as [line|]; [|done].
  destruct (strip line) as [|c raw]; [done|].
  set (parsed := match fullmatch_m _ with Some _ => _ | None => _ end).
  destruct parsed as [[m y]|e]; cbn; [|done].
  destruct (negb _); [reflexivity|]. destruct (negb _); reflexivity.
Qed.

Lemma prompt_13 default_year :
  _prompt_target (Some "13") default_year
  = Run (Raise (ValueError MsgMonthRange)) [EvInput].
Proof. reflexivity. Qed.

(** A target the prompt returns has passed both range tests. *)
Lemma prompt_target_valid line default_year t :
  outcome (_prompt_target line default_year) = Ok t → valid_target t.
Proof.
  unfold _prompt_target. destruct line as [line|]; [|by cbn].
  destruct (strip line) as [|c raw]; [by cbn|].
  set (parsed := match fullmatch_m _ with Some _ => _ | None => _ end).
  destruct parsed as [[m y]|e]; cbn; [|done].
  destruct ((1 <=? m) && (m <=? 12)) eqn:Hm; [|by cbn].
  destruct ((1900 <=? y) && (y <=? 3000)) eqn:Hy; [|by cbn].
  cbn. intros [= <-]. unfold valid_target. cbn. lia.
Qed.

Lemma one_or_two (M : string) :
  String.length M = 1%nat ∨ String.length M = 2%nat →
  (∃ a, M = String a "") ∨ (∃ a b, M = String a (String b "")).
Proof.
  destruct M as [|a [|b [|c M]]]; cbn; intros [?|?]; try done; eauto.
Qed.

Lemma four_long (Y : string) :
  String.length Y = 4%nat →
  ∃ a b c d, Y = String a (String b (String c (String d ""))).
Proof.
  destruct Y as [|a [|b [|c [|d [|e Y]]]]]; cbn; intros ?; try done; eauto 6.
Qed.

Lemma fullmatch_m_Some raw g :
  fullmatch_m raw = Some g → g = raw ∧ month_text raw.
Proof.
  unfold fullmatch_m, month_text.
  destruct (digits_exact 2 raw) as [[g2 [|c r2]]|] eqn:E2.
  - intros [= <-]. apply digits_exact_Some in E2 as (-> & ? & ?).
    assert (g2 +:+ "" = g2) as -> by (clear; induction g2; cbn; congruence).
    eauto.
  - destruct (digits_exact 1 raw) as [[g1 [|d r1]]|] eqn:E1; [|done..].
    intros [= <-]. apply digits_exact_Some in E1 as (-> & ? & ?).
    assert (g1 +:+ "" = g1) as -> by (clear; induction g1; cbn; congruence).
    eauto.
  - destruct (digits_exact 1 raw) as [[g1 [|d r1]]|] eqn:E1; [|done..].
    intros [= <-]. apply digits_exact_Some in E1 as (-> & ? & ?).
    assert (g1 +:+ "" = g1) as -> by (clear; induction g1; cbn; congruence).
    eauto.
Qed.

Lemma append_empty_r (s : string) : s +:+ "" = s.
Proof. induction s; cbn; congruence. Qed.

Lemma month_text_chars M :
  month_text M →
  (∃ a, M = String a "" ∧ is_digit a = true)
  ∨ (∃ a b, M = String a (String b "") ∧ is_digit a = true ∧ is_digit b = true).
Proof.
  intros [Hd Hl]. destruct (one_or_two M Hl) as [(a & ->)|(a & b & ->)].
  - left. exists a. split; [done|]. by apply all_digits_cons in Hd as [? _].
  - right. exists a, b. split; [done|].
    apply all_digits_cons in Hd as [? Hd]. by apply all_digits_cons in Hd as [? _].
Qed.

Lemma year_text_chars Y :
  year_text Y →
  ∃ a b c d, Y = String a (String b (String c (String d "")))
    ∧ is_digit a = true ∧ is_digit b = true
    ∧ is_digit c = true ∧ is_digit d = true.
Proof.
  intros [Hd Hl]. destruct (four_long Y Hl) as (a & b & c & d & ->).
  exists a, b, c, d. split; [done|].
  repeat (apply all_digits_cons in Hd as [? Hd]). done.
Qed.


Lemma digit_slash : is_digit "/" = false.
Proof. reflexivity. Qed.

Lemma digit_dash : is_digit "-" = false.
Proof. reflexivity. Qed.

Lemma digit_eqb_slash c : is_digit c = true → Ascii.eqb "/" c = false.
Proof.
  intros Hc. destruct (Ascii.eqb_spec "/" c) as [<-|]; [|done].
  by rewrite digit_slash in Hc.
Qed.

Ltac run_match :=
  repeat (cbn -[is_digit Ascii.eqb];
          rewrite ?digit_slash, ?digit_dash, ?Ascii.eqb_refl;
          try match goal with
              | H : is_digit ?c = true |- context [is_digit ?c] => rewrite H
              | H : is_digit ?c = true |- context [Ascii.eqb "/" ?c] =>
                  rewrite (digit_eqb_slash c H)
              end).

Lemma fullmatch_month M :
  month_text M → fullmatch_m M = Some M.
Proof.
  intros [(a & -> & Ha)|(a & b & -> & Ha & Hb)]%month_text_chars;
    unfold fullmatch_m; by run_match.
Qed.

Lemma fullmatch_month_year M Y :
  month_text M → year_text Y →
  fullmatch_m (M +:+ "/" +:+ Y) = None
  ∧ fullmatch_m_y (M +:+ "/" +:+ Y) = Some (M, Y).
Proof.
  intros [(a & -> & Ha)|(a & b & -> & Ha & Hb)]%month_text_chars
         (y1 & y2 & y3 & y4 & -> & H1 & H2 & H3 & H4)%year_text_chars;
    unfold fullmatch_m, fullmatch_m_y; by run_match.
Qed.

Lemma fullmatch_year_month M Y :
  month_text M → year_text Y →
  fullmatch_m (Y +:+ "-" +:+ M) = None
  ∧ fullmatch_m_y (Y +:+ "-" +:+ M) = None
  ∧ fullmatch_y_m (Y +:+ "-" +:+ M) = Some (Y, M).
Proof.
  intros [(a & -> & Ha)|(a & b & -> & Ha & Hb)]%month_text_chars
         (y1 & y2 & y3 & y4 & -> & H1 & H2 & H3 & H4)%year_text_chars;
    unfold fullmatch_m, fullmatch_m_y, fullmatch_y_m, fullmatch_m;
    by run_match.
Qed.

Lemma fullmatch_m_y_Some raw g1 g2 :
  fullmatch_m_y raw = Some (g1, g2) →
  raw = g1 +:+ "/" +:+ g2 ∧ month_text g1 ∧ year_text g2.
Proof.
  unfold fullmatch_m_y. cbv zeta.
  assert (∀ w,
    (digits_exact w raw ≫= λ '(g1, rest),
       eat "/" rest ≫= λ rest,
         digits_exact 4 rest ≫= λ '(g2, rest),
           match rest with
           | "" => Some (g1, g2)
           | String _ _ => None
           end) = Some (g1, g2) →
    raw = g1 +:+ "/" +:+ g2
    ∧ (all_digits g1 = true ∧ String.length g1 = w) ∧ year_text g2) as Htail.
  { intros w H.
    destruct (digits_exact w raw) as [[h1 r1]|] eqn:E1; [|done].
    cbn [mbind option_bind] in H.
    destruct (eat "/" r1) as [r2|] eqn:E2; [|done].
    cbn [mbind option_bind] in H.
    destruct (digits_exact 4 r2) as [[h2 r3]|] eqn:E3; [|done].
    cbn [mbind option_bind] in H.
    destruct r3; [|done]. injection H as <- <-.
    apply digits_exact_Some in E1 as (-> & ? & ?), E3 as (-> & ? & ?).
    apply eat_Some in E2 as ->. rewrite append_empty_r. done. }
  intros H.
  match type of H with
  | match ?t2 with Some _ => _ | None => ?t1 end = _ =>
      destruct t2 as [[h1 h2]|] eqn:E2
  end.
  - injection H as -> ->. apply Htail in E2 as (? & [? ?] & ?).
    split_and!; try done. split; [done|by right].
  - apply Htail in H as (? & [? ?] & ?).
    split_and!; try done. split; [done|by left].
Qed.

Lemma fullmatch_y_m_Some raw g1 g2 :
  fullmatch_y_m raw = Some (g1, g2) →
  raw = g1 +:+ "-" +:+ g2 ∧ year_text g1 ∧ month_text g2.
Proof.
  unfold fullmatch_y_m. intros H.
  destruct (digits_exact 4 raw) as [[h1 r1]|] eqn:E1; [|done].
  cbn [mbind option_bind] in H.
  destruct (eat "-" r1) as [r2|] eqn:E2; [|done].
  cbn [mbind option_bind] in H.
  destruct (fullmatch_m r2) as [h2|] eqn:E3; [|done].
  cbn [mbind option_bind] in H. injection H as <- <-.
  apply digits_exact_Some in E1 as (-> & ? & ?).
  apply eat_Some in E2 as ->. apply fullmatch_m_Some in E3 as [-> ?].
  done.
Qed.

Lemma month_text_numeral M : month_text M → py_int M = Ok (numeral M).
Proof.
  intros [Hd Hl]. apply py_int_numeral; [done|]. by destruct M, Hl.
Qed.

Lemma year_text_numeral Y : year_text Y → py_int Y = Ok (numeral Y).
Proof. intros [Hd Hl]. apply py_int_numeral; [done|]. by destruct Y. Qed.

Lemma prompt_checked (parsed : result (Z * Z)) m y :
  parsed = Ok (m, y) →
  outcome
    (emit EvInput;;
     '(month, year) ← lift parsed;
     if negb ((1 <=? month) && (month <=? 12))
     then raise (ValueError MsgMonthRange)
     else if negb ((1900 <=? year) && (year <=? 3000))
     then raise (ValueError MsgYearInvalid)
     else mret {| month := month; year := year |})
  = checked_target m y.
Proof.
  intros ->. unfold checked_target. cbn.
  destruct (negb _); [done|]. by destruct (negb _).
Qed.

Lemma prompt_accepted line default_year m y :
  accepted_form default_year (strip line) m y →
  outcome (_prompt_target (Some line) default_year) = checked_target m y.
Proof.
  unfold _prompt_target. generalize (strip line). intros raw Hform.
  destruct Hform as [M HM|M Y HM HY|M Y HM HY].
  - pose proof (fullmatch_month M HM) as H1.
    pose proof (month_text_numeral M HM) as Hint.
    destruct M as [|c r]; [by destruct HM as [_ [?|?]]|].
    rewrite H1. apply prompt_checked. by rewrite Hint.
  - destruct (fullmatch_month_year M Y HM HY) as [H1 H2].
    pose proof (month_text_numeral M HM) as Hint.
    pose proof (year_text_numeral Y HY) as Hint'.
    destruct (M +:+ "/" +:+ Y) as [|c r] eqn:E;
      [destruct M; [|done]; by destruct HM as [_ [?|?]]|].
    rewrite H1, H2. apply prompt_checked. by rewrite Hint, Hint'.
  - destruct (fullmatch_year_month M Y HM HY) as (H1 & H2 & H3).
    pose proof (month_text_numeral M HM) as Hint.
    pose proof (year_text_numeral Y HY) as Hint'.
    destruct (Y +:+ "-" +:+ M) as [|c r] eqn:E;
      [destruct Y; [|done]; by destruct HY as [_ ?]|].
    rewrite H1, H2, H3. apply prompt_checked. by rewrite Hint, Hint'.
Qed.

Lemma prompt_not_accepted line default_year :
  (∀ m y, ¬ accepted_form default_year (strip line) m y) →
  outcome (_prompt_target (Some line) default_year)
  = Raise (ValueError
             match strip line with
             | "" => MsgNoInput
             | _ => MsgInvalidFormat
             end).
Proof.
  unfold _prompt_target. intros Hno.
  destruct (strip line) as [|c r] eqn:E; [done|].
  destruct (fullmatch_m (String c r)) as [g|] eqn:H1.
  { apply fullmatch_m_Some in H1 as [-> HM]. exfalso.
    eapply Hno. by apply form_month. }
  destruct (fullmatch_m_y (String c r)) as [[g1 g2]|] eqn:H2.
  { apply fullmatch_m_y_Some in H2 as (Heq & HM & HY). exfalso.
    eapply Hno. rewrite Heq. by apply form_month_year. }
  destruct (fullmatch_y_m (String c r)) as [[g1 g2]|] eqn:H3.
  { apply fullmatch_y_m_Some in H3 as (Heq & HY & HM). exfalso.
    eapply Hno. rewrite Heq. by apply form_year_month. }
  reflexivity.
Qed.

(** ** The runs of [main] *)

Lemma discovery_total entries :
  ∃ generated, _list_generated_targets (Some entries) = Ok generated.
Proof.
  destruct (list_generated_targets_elem entries) as (l & H & _). eauto.
Qed.

Lemma ready_trace w : trace (_ensure_playwright_ready w) = [].
Proof.
  unfold _ensure_playwright_ready.
  destruct (negb (which_node w)); [done|]. by destruct (_ && _).
Qed.

Ltac mstep :=
  cbn -[pdf_name year_str month_str py_str insert String.append
        _format_targets ym_str _load_env next_number
        _ensure_playwright_ready _prompt_target _list_generated_targets
        existsb].

(** Every run of [main], stage by stage, with the trace it leaves. *)
Lemma main_eq w :
  main w =
  if negb (env_exists w) then Run (Ok 1) [EvPrint OutEnvNotFound]
  else if negb (template_exists w) then Run (Ok 1) [EvPrint OutTemplateNotFound]
  else
    match _list_generated_targets (Some (invoices w)) with
    | Raise e => Run (Raise e) [EvMkdir InvoicesDir]
    | Ok generated =>
      let tr1 := [EvMkdir InvoicesDir;
                  EvPrint (OutAlreadyGenerated (_format_targets generated));
                  EvInput] in
      match outcome (_prompt_target (input_line w) (today_year w)) with
      | Raise exc => Run (Ok 1) (tr1 ++ [EvPrint (OutError exc)])
      | Ok target =>
        let tr2 :=
          tr1 ++ if existsb (λ t, (year t =? year target)
                                  && (month t =? month target)) generated
                 then [EvPrint (OutWarning (ym_str target))] else [] in
        match outcome (_ensure_playwright_ready w) with
        | Raise exc => Run (Ok 1) (tr2 ++ [EvPrint (OutError exc)])
        | Ok _ =>
          match _load_env (dotenv_values w) with
          | Raise exc => Run (Ok 1) (tr2 ++ [EvPrint (OutError exc)])
          | Ok env =>
            match next_number (number_file w) (Some (invoices w)) with
            | Raise e => Run (Raise e) tr2
            | Ok next =>
              let name := pdf_name target next in
              let context :=
                <["DUE_DATE" := year_str target +:+ "-" +:+ month_str target
                                +:+ "-30"]>
                  (<["CREATION_DATE" := year_str target +:+ "-"
                                        +:+ month_str target +:+ "-01"]>
                     (<["INVOICE_NUMBER" := py_str next]> env)) in
              let cleanup :=
                [EvRemoveIfExists TempHtml; EvRemoveIfExists TempPdf] in
              if pdf_out_exists w name
              then Run (Ok 1) (tr2 ++ [EvPrint (OutPdfExists name)])
              else
                match render w context with
                | Raise e => Run (Raise e) (tr2 ++ [EvRender context] ++ cleanup)
                | Ok html =>
                  let tr3 := tr2 ++ [EvRender context;
                                     EvWriteText TempHtml html;
                                     EvHtmlToPdf TempHtml TempPdf] in
                  match html_to_pdf w html with
                  | Raise e => Run (Raise e) (tr3 ++ cleanup)
                  | Ok _ =>
                    if negb (temp_pdf_exists w)
                    then Run (Ok 1)
                           (tr3 ++ [EvPrint OutNotGenerated] ++ cleanup)
                    else Run (Ok 0)
                           (tr3 ++ [EvMove TempPdf (InvoicePdf name);
                                    EvWriteText NumberPath
                                      (py_str next +:+ String LF "");
                                    EvPrint (OutPdfGenerated name)]
                                ++ cleanup)
                  end
                end
            end
          end
        end
      end
    end.
Proof.
  unfold main.
  destruct (negb (env_exists w)); [reflexivity|].
  destruct (negb (template_exists w)); [reflexivity|].
  destruct (_list_generated_targets (Some (invoices w))) as [generated|e];
    [|reflexivity].
  pose proof (prompt_trace (input_line w) (today_year w)) as Hpt.
  destruct (_prompt_target (input_line w) (today_year w)) as [[target|exc] ptr];
    cbn in Hpt; subst ptr; [|reflexivity].
  pose proof (ready_trace w) as Hrt.
  destruct (_ensure_playwright_ready w) as [[[]|exc] rtr];
    cbn in Hrt; subst rtr; mstep;
    match goal with
    | |- context [existsb ?f generated] => destruct (existsb f generated)
    end; try reflexivity;
    (destruct (_load_env (dotenv_values w)) as [env|exc]; [|reflexivity];
     destruct (next_number _ _) as [next|e]; [|reflexivity];
     mstep; destruct (pdf_out_exists w _); [reflexivity|];
     mstep; destruct (render w _) as [html|e]; [|reflexivity];
     mstep; destruct (html_to_pdf w html) as [[]|e]; [|reflexivity];
     mstep; destruct (temp_pdf_exists w); reflexivity).
Qed.

(** The cases of a run, with a name for what each stage answered. *)
Ltac main_cases w :=
  rewrite (main_eq w); cbv zeta;
  destruct (env_exists w) eqn:Henv; cbn [negb];
  [destruct (template_exists w) eqn:Htpl; cbn [negb];
   [destruct (discovery_total (invoices w)) as [generated Hgen];
    rewrite Hgen;
    destruct (outcome (_prompt_target (input_line w) (today_year w)))
      as [target|exc] eqn:Hprompt;
    [match goal with
     | |- context [if existsb ?f ?g then [EvPrint _] else []] =>
         destruct (existsb f g) eqn:Hwarn
     end;
     (destruct (outcome (_ensure_playwright_ready w)) as [[]|exc] eqn:Hready;
      [destruct (_load_env (dotenv_values w)) as [env|exc] eqn:Hload;
       [destruct (next_number (number_file w) (Some (invoices w)))
          as [next|e] eqn:Hnext;
        [match goal with
         | |- context [if pdf_out_exists w ?n then _ else _] =>
             destruct (pdf_out_exists w n) eqn:Hexists
         end;
         [|match goal with
           | |- context [render w ?c] =>
               destruct (render w c) as [html|e] eqn:Hrender
           end;
           [match goal with
            | |- context [html_to_pdf w ?h] =>
                destruct (html_to_pdf w h) as [[]|e] eqn:Hconv
            end;
            [destruct (temp_pdf_exists w) eqn:Htmp; cbn [negb]|]|]]|]|]|])
    |]|]|].

Lemma accepted_form_chars default_year raw m y :
  accepted_form default_year raw m y →
  all_chars (λ c, is_digit c || Ascii.eqb c "/" || Ascii.eqb c "-") raw = true.
Proof.
  assert (∀ s, all_digits s = true →
    all_chars (λ c, is_digit c || Ascii.eqb c "/" || Ascii.eqb c "-") s = true)
    as Hd.
  { intros s. apply all_chars_impl. intros c ->. reflexivity. }
  intros [M [HM _]|M Y [HM _] [HY _]|M Y [HM _] [HY _]].
  - by apply Hd.
  - rewrite !all_chars_app, (Hd M), (Hd Y) by done. reflexivity.
  - rewrite !all_chars_app, (Hd M), (Hd Y) by done. reflexivity.
Qed.

(** C7. For every line typed at the prompt, white space around it set
    aside: a line in none of the accepted forms ([M] or [MM] for the current
    year, [MM/YYYY], [YYYY-MM], the month written with one or two digits) is
    rejected with a [ValueError], whose message is the one about the format,
    or the one about no input when the line is blank; a line in an accepted
    form whose month is outside 1..12, or whose year is outside 1900..3000,
    is rejected. A run in which [13] is typed ends with status 1, makes no
    PDF and leaves the counter as it was. *)
Theorem prompt_rejects (line : string) (default_year m y : Z) (w : World) :
  ((∀ m y, ¬ accepted_form default_year (strip line) m y) →
   outcome (_prompt_target (Some line) default_year)
   = Raise (ValueError match strip line with
                       | "" => MsgNoInput
                       | _ => MsgInvalidFormat
                       end))
  ∧ (accepted_form default_year (strip line) m y → ¬ (1 ≤ m ≤ 12) →
     outcome (_prompt_target (Some line) default_year)
     = Raise (ValueError MsgMonthRange))
  ∧ (accepted_form default_year (strip line) m y →
     1 ≤ m ≤ 12 → ¬ (1900 ≤ y ≤ 3000) →
     outcome (_prompt_target (Some line) default_year)
     = Raise (ValueError MsgYearInvalid))
  ∧ (input_line w = Some "13" →
     exit_status (main w) = 1
     ∧ existsb makes_pdf (trace (main w)) = false
     ∧ existsb updates_counter (trace (main w)) = false).
Proof.
  split_and!.
  - apply prompt_not_accepted.
  - intros Hform Hm. rewrite (prompt_accepted _ _ _ _ Hform).
    unfold checked_target.
    destruct ((1 <=? m) && (m <=? 12)) eqn:E; [|done].
    apply andb_true_iff in E as [?%Z.leb_le ?%Z.leb_le]. lia.
  - intros Hform Hm Hy. rewrite (prompt_accepted _ _ _ _ Hform).
    unfold checked_target.
    destruct ((1 <=? m) && (m <=? 12)) eqn:E.
    + destruct ((1900 <=? y) && (y <=? 3000)) eqn:E'; [|done].
      apply andb_true_iff in E' as [?%Z.leb_le ?%Z.leb_le]. lia.
    + apply andb_false_iff in E as [?%Z.leb_gt|?%Z.leb_gt]; lia.
  - intros Hline. unfold exit_status. main_cases w; try done;
      by rewrite Hline, prompt_13 in Hprompt.
Qed.

Lemma prompt_rejects_witness :
  outcome (_prompt_target (Some "March") 2026)
  = Raise (ValueError MsgInvalidFormat)
  ∧ outcome (_prompt_target (Some " 13 ") 2026)
    = Raise (ValueError MsgMonthRange)
  ∧ outcome (_prompt_target (Some "02/3001") 2026)
    = Raise (ValueError MsgYearInvalid)
  ∧ (exit_status (main (with_input (Some "13") fair_world)) = 1
     ∧ existsb makes_pdf (trace (main (with_input (Some "13") fair_world)))
       = false
     ∧ existsb updates_counter
         (trace (main (with_input (Some "13") fair_world))) = false).
Proof.
  split_and!.
  - apply (proj1 (prompt_rejects "March" 2026 0 0 fair_world)).
    intros m y H. by apply accepted_form_chars in H.
  - apply (proj1 (proj2 (prompt_rejects " 13 " 2026 13 2026 fair_world))).
    + apply (form_month 2026 "13"). split; [reflexivity|by right].
    + lia.
  - apply (proj1 (proj2 (proj2
             (prompt_rejects "02/3001" 2026 2 3001 fair_world)))).
    + apply (form_month_year 2026 "02" "3001").
      * split; [reflexivity|by right].
      * split; reflexivity.
    + lia.
    + lia.
  - apply (proj2 (proj2 (proj2
             (prompt_rejects "" 0 0 0 (with_input (Some "13") fair_world))))).
    reflexivity.
  - apply (proj2 (proj2 (proj2
             (prompt_rejects "" 0 0 0 (with_input (Some "13") fair_world))))).
    reflexivity.
  - apply (proj2 (proj2 (proj2
             (prompt_rejects "" 0 0 0 (with_input (Some "13") fair_world))))).
    reflexivity.
Defined.

(** ** The targets the program constructs *)

(** C9, as stated, fails: discovery recovers the target of a file name
    whose year is 0001, which is outside 1900..3000. *)
Lemma discovered_year_out_of_range :
  _list_generated_targets (Some ["Invoice_0001_01_#1.pdf"])
  = Ok [ {| month := 1; year := 1 |} ]
  ∧ ¬ valid_target {| month := 1; year := 1 |}.
Proof.
  split; [by vm_compute|]. unfold valid_target. cbn. lia.
Qed.

(** C9, amended. A target obtained from the prompt has its month in 1..12
    and its year in 1900..3000; a target recovered by directory discovery
    has its month in 1..12 and the year its four digits denote, which lies
    in 0..9999. *)
Theorem target_ranges (line : option string) (default_year : Z)
    (invoices_dir : option (list string)) (targets : list InvoiceTarget)
    (t : InvoiceTarget) :
  (outcome (_prompt_target line default_year) = Ok t → valid_target t)
  ∧ (_list_generated_targets invoices_dir = Ok targets → t ∈ targets →
     1 ≤ month t ≤ 12 ∧ 0 ≤ year t ≤ 9999).
Proof.
  split; [apply prompt_target_valid|].
  destruct invoices_dir as [entries|].
  - destruct (list_generated_targets_elem entries) as (l & Hl & Hiff).
    rewrite Hl. intros [= <-] Hin.
    apply Hiff in Hin as (Hm & name & n & _ & Hname). split; [done|].
    destruct Hname as (Y & M & N & ((HY & HlY) & _) & _ & -> & _).
    pose proof (numeral_range Y HY) as Hr. rewrite HlY in Hr.
    change (10 ^ Z.of_nat 4) with 10000 in Hr. lia.
  - intros [= <-] Hin. by apply elem_of_nil in Hin.
Qed.

Lemma target_ranges_witness :
  valid_target {| month := 2; year := 2026 |}
  ∧ (1 ≤ month {| month := 12; year := 3 |} ≤ 12
     ∧ 0 ≤ year {| month := 12; year := 3 |} ≤ 9999).
Proof.
  split.
  - apply (proj1 (target_ranges (Some "2026-02") 1999 None []
                    {| month := 2; year := 2026 |})).
    reflexivity.
  - apply (proj2 (target_ranges None 0 (Some ["Invoice_12_0003_#8.pdf"])
                    [ {| month := 12; year := 3 |} ]
                    {| month := 12; year := 3 |})).
    + by vm_compute.
    + apply list_elem_of_here.
Defined.

(** ** The configuration *)

Lemma normalize_empty v : _normalize_env_value v = "" ↔ v = "".
Proof.
  destruct v as [|c [|d r]]; cbn; [done|done|].
  by destruct (_ && _).
Qed.

Lemma load_env_lookup items : ∀ (env0 : gmap string string) k,
  foldl (λ (env : gmap string string) kv,
           match kv with
           | (Some k, Some v) => <[k := _normalize_env_value v]> env
           | _ => env
           end) env0 items !! k
  = match last_value k items with
    | Some v => Some (_normalize_env_value v)
    | None => env0 !! k
    end.
Proof.
  induction items as [|[[k'|] [v|]] items IH]; intros env0 k; cbn;
    [done|rewrite IH|apply IH..].
  destruct (last_value k items); [done|].
  destruct (String.eqb_spec k' k) as [->|Hne].
  - by rewrite lookup_insert_eq.
  - by rewrite lookup_insert_ne.
Qed.

Lemma load_env_missing items k :
  k ∈ REQUIRED_ENV_KEYS → missing_or_empty items k →
  ∃ missing, k ∈ missing
             ∧ _load_env items = Raise (ValueError (MsgMissingKeys missing)).
Proof.
  intros Hk Hmiss. unfold _load_env.
  match goal with
  | |- context [List.filter ?f ?l] =>
      assert (k ∈ List.filter f l) as Hin; [|destruct (List.filter f l)]
  end.
  - apply list_elem_of_In, filter_In. split; [by apply list_elem_of_In|].
    unfold key_missing. rewrite load_env_lookup, lookup_empty.
    destruct Hmiss as [-> | ->]; done.
  - by apply elem_of_nil in Hin.
  - eauto.
Qed.

(** ** Order of the steps of a run *)

Ltac in_trace :=
  cbn [trace outcome app]; rewrite ?elem_of_cons, ?elem_of_nil;
  try (intuition congruence).

(** C5, as stated, fails: with every required key missing and both files
    present, the prompt is read before the configuration is loaded. *)
Lemma prompt_read_before_keys_are_checked :
  "COMPANY_NAME" ∈ REQUIRED_ENV_KEYS
  ∧ missing_or_empty (dotenv_values (with_values [] fair_world)) "COMPANY_NAME"
  ∧ trace (main (with_values [] fair_world))
    = [ EvMkdir InvoicesDir;
        EvPrint (OutAlreadyGenerated "none yet");
        EvInput;
        EvPrint (OutError (ValueError (MsgMissingKeys REQUIRED_ENV_KEYS))) ]
  ∧ EvInput ∈ trace (main (with_values [] fair_world)).
Proof.
  assert (trace (main (with_values [] fair_world))
          = [ EvMkdir InvoicesDir;
              EvPrint (OutAlreadyGenerated "none yet");
              EvInput;
              EvPrint (OutError (ValueError (MsgMissingKeys REQUIRED_ENV_KEYS))) ])
    as Htr by (by vm_compute).
  split_and!.
  - apply list_elem_of_here.
  - by left.
  - done.
  - rewrite Htr. in_trace.
Qed.

(** C5, amended. In every run where a required configuration key is
    missing or empty, the run ends with status 1, makes no PDF and leaves
    the counter as it was. The keys are checked when the configuration is
    loaded, which comes after the prompt: the prompt is read in such a run
    exactly when the [.env] file and the template are both present, the two
    conditions tested before it. *)
Theorem missing_key_fails (w : World) (k : string) :
  k ∈ REQUIRED_ENV_KEYS → missing_or_empty (dotenv_values w) k →
  exit_status (main w) = 1
  ∧ existsb makes_pdf (trace (main w)) = false
  ∧ existsb updates_counter (trace (main w)) = false
  ∧ (EvInput ∈ trace (main w)
     ↔ env_exists w = true ∧ template_exists w = true).
Proof.
  intros Hk Hmiss.
  destruct (load_env_missing _ _ Hk Hmiss) as (missing & _ & Hraise).
  unfold exit_status. main_cases w; try congruence;
    (split_and!; [done..|in_trace]).
Qed.

Lemma missing_key_fails_witness :
  exit_status (main (with_values [(Some "IBAN", Some "")] fair_world)) = 1
  ∧ existsb makes_pdf
      (trace (main (with_values [(Some "IBAN", Some "")] fair_world))) = false
  ∧ existsb updates_counter
      (trace (main (with_values [(Some "IBAN", Some "")] fair_world))) = false
  ∧ (EvInput ∈ trace (main (with_values [(Some "IBAN", Some "")] fair_world))
     ↔ env_exists (with_values [(Some "IBAN", Some "")] fair_world) = true
       ∧ template_exists (with_values [(Some "IBAN", Some "")] fair_world)
         = true).
Proof.
  apply (missing_key_fails (with_values [(Some "IBAN", Some "")] fair_world)
           "IBAN").
  - do 9 apply list_elem_of_further. apply list_elem_of_here.
  - by right.
Defined.

(** C6. In every run, the counter is written only after the PDF has been
    moved to its final name, and with the number that name carries; the
    final name is tested for existence before rendering begins: rendering
    begins only when the test found no such file, and when it finds one the
    run stops there with status 1, having rendered, made and written
    nothing. *)
Theorem counter_written_after_move (w : World) (before after : list event)
    (content : string) (context : gmap string string)
    (tgt : InvoiceTarget) (num : Z) :
  (trace (main w) = before ++ EvWriteText NumberPath content :: after →
   ∃ target next,
     reaches_output_check w = Some (target, next)
     ∧ content = py_str next +:+ String LF ""
     ∧ EvMove TempPdf (InvoicePdf (pdf_name target next)) ∈ before)
  ∧ (EvRender context ∈ trace (main w) →
     ∃ target next,
       reaches_output_check w = Some (target, next)
       ∧ pdf_out_exists w (pdf_name target next) = false)
  ∧ (reaches_output_check w = Some (tgt, num) →
     pdf_out_exists w (pdf_name tgt num) = true →
     outcome (main w) = Ok 1
     ∧ EvPrint (OutPdfExists (pdf_name tgt num)) ∈ trace (main w)
     ∧ (∀ c, EvRender c ∉ trace (main w))
     ∧ existsb makes_pdf (trace (main w)) = false
     ∧ existsb updates_counter (trace (main w)) = false).
Proof.
  unfold reaches_output_check. split_and!.
  - main_cases w; cbn [app andb trace]; intros Htr;
      repeat (destruct before as [|? before]; simplify_eq/=).
    all: eexists _, _; split_and!; [done..|in_trace].
  - main_cases w; cbn [app andb trace]; intros Hin;
      first [by eexists _, _ | revert Hin; in_trace].
  - main_cases w; cbn [app andb trace outcome]; try done;
      intros [= <- <-] Hyes; try congruence.
    all: split_and!; [done| |intros c|done..]; in_trace.
Qed.

Lemma fair_world_trace :
  trace (main fair_world)
  = [ EvMkdir InvoicesDir;
      EvPrint (OutAlreadyGenerated "none yet");
      EvInput;
      EvRender fair_context;
      EvWriteText TempHtml "<html></html>";
      EvHtmlToPdf TempHtml TempPdf ]
    ++ EvMove TempPdf (InvoicePdf "Invoice_2026_03_#1.pdf")
    :: EvWriteText NumberPath (String "1" (String LF ""))
    :: [ EvPrint (OutPdfGenerated "Invoice_2026_03_#1.pdf");
         EvRemoveIfExists TempHtml;
         EvRemoveIfExists TempPdf ].
Proof. by vm_compute. Qed.

Lemma counter_written_after_move_witness :
  (∃ target next,
     reaches_output_check fair_world = Some (target, next)
     ∧ String "1" (String LF "") = py_str next +:+ String LF ""
     ∧ EvMove TempPdf (InvoicePdf (pdf_name target next))
       ∈ [ EvMkdir InvoicesDir;
           EvPrint (OutAlreadyGenerated "none yet");
           EvInput;
           EvRender fair_context;
           EvWriteText TempHtml "<html></html>";
           EvHtmlToPdf TempHtml TempPdf;
           EvMove TempPdf (InvoicePdf "Invoice_2026_03_#1.pdf") ])
  ∧ (∃ target next,
       reaches_output_check fair_world = Some (target, next)
       ∧ pdf_out_exists fair_world (pdf_name target next) = false)
  ∧ (outcome (main (with_pdf_out_exists (λ _, true) fair_world)) = Ok 1
     ∧ EvPrint (OutPdfExists (pdf_name {| month := 3; year := 2026 |} 1))
       ∈ trace (main (with_pdf_out_exists (λ _, true) fair_world))
     ∧ (∀ c, EvRender c
             ∉ trace (main (with_pdf_out_exists (λ _, true) fair_world)))
     ∧ existsb makes_pdf
         (trace (main (with_pdf_out_exists (λ _, true) fair_world))) = false
     ∧ existsb updates_counter
         (trace (main (with_pdf_out_exists (λ _, true) fair_world))) = false).
Proof.
  split; [|split].
  - apply (proj1 (counter_written_after_move fair_world
                    [ EvMkdir InvoicesDir;
                      EvPrint (OutAlreadyGenerated "none yet");
                      EvInput;
                      EvRender fair_context;
                      EvWriteText TempHtml "<html></html>";
                      EvHtmlToPdf TempHtml TempPdf;
                      EvMove TempPdf (InvoicePdf "Invoice_2026_03_#1.pdf") ]
                    [ EvPrint (OutPdfGenerated "Invoice_2026_03_#1.pdf");
                      EvRemoveIfExists TempHtml;
                      EvRemoveIfExists TempPdf ]
                    (String "1" (String LF "")) fair_context
                    {| month := 3; year := 2026 |} 1)).
    by vm_compute.
  - apply (proj1 (proj2 (counter_written_after_move fair_world [] [] ""
                           fair_context {| month := 3; year := 2026 |} 1))).
    rewrite fair_world_trace. cbn [app].
    do 3 apply list_elem_of_further. apply list_elem_of_here.
  - apply (proj2 (proj2 (counter_written_after_move
                           (with_pdf_out_exists (λ _, true) fair_world)
                           [] [] "" fair_context
                           {| month := 3; year := 2026 |} 1)));
      by vm_compute.
Defined.

(** ** Failures and the status of the process *)


Lemma ex_tail_cons {A} (a : A) (l suffix : list A) :
  (∃ tr, l = tr ++ suffix) → ∃ tr, a :: l = tr ++ suffix.
Proof. intros [tr ->]. by exists (a :: tr). Qed.

Ltac find_event :=
  repeat (first [apply list_elem_of_here | apply list_elem_of_further]).

Ltac within_limit :=
  split_and!;
  [ by intros ? [=]
  | by intros ? ?%elem_of_nil
  | let H := fresh in
    intros ? H; vm_compute in H; injection H as <-; by vm_compute ].

(** C8. Two kinds of error are not caught by [main]. With a counter file
    that holds [12a] and everything else in order, the error of the reading
    (state corruption) leaves [main] after the prompt: the program prints
    no line that begins with [Error:]. With a renderer that raises, the
    error leaves [main] once the temporary files are removed, and no such
    line is printed either. An error of the prompt, by contrast, is caught:
    [main] prints its line and returns 1. The status of the process is 1 in
    the three runs. *)
Theorem errors_that_leave_main :
  (outcome (main (with_number_file (Some "12a") fair_world))
   = Raise (ValueError (MsgInvalidCounter "12a"))
   ∧ trace (main (with_number_file (Some "12a") fair_world))
     = [ EvMkdir InvoicesDir;
         EvPrint (OutAlreadyGenerated "none yet");
         EvInput ]
   ∧ exit_status (main (with_number_file (Some "12a") fair_world)) = 1)
  ∧ (outcome
       (main (with_render
                (λ _, Raise (ExternalError (MsgExternal "TemplateError")))
                fair_world))
     = Raise (ExternalError (MsgExternal "TemplateError"))
     ∧ trace
         (main (with_render
                  (λ _, Raise (ExternalError (MsgExternal "TemplateError")))
                  fair_world))
       = [ EvMkdir InvoicesDir;
           EvPrint (OutAlreadyGenerated "none yet");
           EvInput;
           EvRender fair_context;
           EvRemoveIfExists TempHtml;
           EvRemoveIfExists TempPdf ]
     ∧ exit_status
         (main (with_render
                  (λ _, Raise (ExternalError (MsgExternal "TemplateError")))
                  fair_world)) = 1)
  ∧ (outcome (main (with_input (Some "13") fair_world)) = Ok 1
     ∧ trace (main (with_input (Some "13") fair_world))
       = [ EvMkdir InvoicesDir;
           EvPrint (OutAlreadyGenerated "none yet");
           EvInput;
           EvPrint (OutError (ValueError MsgMonthRange)) ]
     ∧ exit_status (main (with_input (Some "13") fair_world)) = 1).
Proof. split_and!; by vm_compute. Qed.



(** * Properties beyond the specification *)

(** ** Zero-padded numbers and the names of generated files *)

Lemma length_append (s t : string) :
  String.length (s +:+ t) = (String.length s + String.length t)%nat.
Proof. induction s as [|c s IH]; simpl; [done|by rewrite IH]. Qed.

Lemma zeros_digits n : all_digits (zeros n) = true.
Proof. induction n; [done|]. by apply all_digits_cons. Qed.

Lemma length_zeros n : String.length (zeros n) = n.
Proof. induction n; simpl; congruence. Qed.

Lemma numeral_from_app acc s t :
  numeral_from acc (s +:+ t) = numeral_from (numeral_from acc s) t.
Proof. revert acc. induction s as [|c s IH]; intros acc; simpl; [done|apply IH]. Qed.

Lemma numeral_from_zeros n : numeral_from 0 (zeros n) = 0.
Proof. induction n; simpl; [done|]. exact IHn. Qed.

Lemma numeral_zeros n s : numeral (zeros n +:+ s) = numeral s.
Proof. unfold numeral. by rewrite numeral_from_app, numeral_from_zeros. Qed.

Lemma to_uint_head_nonzero p d : Pos.to_uint p ≠ Decimal.D0 d.
Proof.
  intros Hd.
  assert (Decimal.unorm (Pos.to_uint p) = Pos.to_uint p) as Hn.
  { rewrite <- (DecimalPos.Unsigned.to_of (Pos.to_uint p)).
    by rewrite DecimalPos.Unsigned.of_to. }
  rewrite Hd in Hn. unfold Decimal.unorm in Hn. simpl in Hn.
  destruct (Decimal.nzhead d) eqn:Hz;
    try (by (apply (DecimalFacts.nzhead_nonzero d d); congruence)).
  injection Hn as <-. by apply (DecimalPos.Unsigned.to_uint_nonzero p).
Qed.

(** The digits of a positive number are at least as many as its size
    asks for: with [k] digits the number is at least [10 ^ (k - 1)]. *)
Lemma py_str_pos_lower p :
  10 ^ (Z.of_nat (String.length (py_str (Z.pos p))) - 1) ≤ Z.pos p.
Proof.
  rewrite py_str_pos. pose proof (numeral_to_uint p) as Hn.
  pose proof (string_of_uint_digits (Pos.to_uint p)) as Hd.
  pose proof (to_uint_head_nonzero p) as Hz.
  pose proof (DecimalPos.Unsigned.to_uint_nonnil p) as Hnil.
  destruct (Pos.to_uint p) as [|d|d|d|d|d|d|d|d|d|d]; try done;
    try (by destruct (Hz d));
    simpl in *; apply all_digits_cons in Hd as [_ Hd];
    rewrite <- Hn, numeral_cons;
    match goal with
    | |- _ ≤ numeral_from ?a ?s =>
        pose proof (numeral_from_range a s Hd ltac:(by vm_compute)) as Hr
    end;
    replace (Z.of_nat (S (String.length (NilEmpty.string_of_uint d))) - 1)
      with (Z.of_nat (String.length (NilEmpty.string_of_uint d))) by lia;
    (etrans; [|apply Hr]); vm_compute (digit_value _); lia.
Qed.

Lemma py_str_length_le (w : nat) n :
  0 ≤ n < 10 ^ Z.of_nat w → (0 < w)%nat →
  (String.length (py_str n) ≤ w)%nat.
Proof.
  intros [H0 Hw] Hpos. destruct n as [|p|p]; [simpl; lia| |lia].
  pose proof (py_str_pos_lower p) as Hl.
  destruct (decide (String.length (py_str (Z.pos p)) ≤ w)%nat) as [|Hgt];
    [done|exfalso].
  assert (10 ^ Z.of_nat w ≤ 10 ^ (Z.of_nat (String.length (py_str (Z.pos p))) - 1)).
  { apply Z.pow_le_mono_r; lia. }
  lia.
Qed.

(** [f"{n:0wd}"] for [0 <= n < 10 ^ w]: exactly [w] digits, which denote
    [n]. *)
Lemma format_0d_fields (w : nat) n :
  0 ≤ n < 10 ^ Z.of_nat w → (0 < w)%nat →
  all_digits (format_0d w n) = true
  ∧ String.length (format_0d w n) = w
  ∧ numeral (format_0d w n) = n.
Proof.
  intros Hn Hw. pose proof (py_str_length_le w n Hn Hw) as Hlen.
  destruct (py_str_nonneg n) as (Hd & _ & Hnum); [lia|].
  unfold format_0d. destruct (Z.ltb_spec n 0) as [|_]; [lia|].
  rewrite Z.abs_eq by lia. split_and!.
  - unfold all_digits. rewrite all_chars_app.
    fold (all_digits (zeros (w - String.length (py_str n)))).
    fold (all_digits (py_str n)). by rewrite zeros_digits, Hd.
  - rewrite length_append, length_zeros. lia.
  - by rewrite numeral_zeros.
Qed.

(** A number too large for the width is written in full. *)
Lemma format_0d_wide (w : nat) n :
  10 ^ Z.of_nat w ≤ n → format_0d w n = py_str n.
Proof.
  intros Hn. unfold format_0d.
  assert (0 < 10 ^ Z.of_nat w) by (apply Z.pow_pos_nonneg; lia).
  destruct (Z.ltb_spec n 0) as [|_]; [lia|]. rewrite Z.abs_eq by lia.
  destruct n as [|p|p]; [lia| |lia].
  destruct (py_str_nonneg (Z.pos p)) as (Hd & _ & Hnum); [lia|].
  pose proof (numeral_range _ Hd) as Hr. rewrite Hnum in Hr.
  assert (w ≤ String.length (py_str (Z.pos p)))%nat as Hle.
  { destruct (decide (w ≤ String.length (py_str (Z.pos p)))%nat); [done|].
    assert (10 ^ Z.of_nat (String.length (py_str (Z.pos p))) ≤ 10 ^ Z.of_nat w)
      by (apply Z.pow_le_mono_r; lia).
    lia. }
  replace (w - String.length (py_str (Z.pos p)))%nat with 0%nat by lia.
  done.
Qed.

Lemma pdf_name_fields target next :
  0 ≤ year target ≤ 9999 → 0 ≤ month target ≤ 99 → 0 ≤ next →
  fields (year_str target) (month_str target) (py_str next)
  ∧ numeral (year_str target) = year target
  ∧ numeral (month_str target) = month target
  ∧ numeral (py_str next) = next.
Proof.
  intros Hy Hm Hn.
  destruct (format_0d_fields 4 (year target)) as (? & ? & ?);
    [change (10 ^ Z.of_nat 4) with 10000; lia|lia|].
  destruct (format_0d_fields 2 (month target)) as (? & ? & ?);
    [change (10 ^ Z.of_nat 2) with 100; lia|lia|].
  destruct (py_str_nonneg next Hn) as (? & ? & ?).
  by repeat split.
Qed.

Lemma pdf_name_invoice_filename target next :
  0 ≤ year target ≤ 9999 → 0 ≤ month target ≤ 99 → 0 ≤ next →
  invoice_filename (pdf_name target next) (year target) (month target) next.
Proof.
  intros Hy Hm Hn.
  destruct (pdf_name_fields target next Hy Hm Hn) as (HF & ? & ? & ?).
  exists (year_str target), (month_str target), (py_str next).
  split_and!; try done. by left.
Qed.

(** X1. The name [main] gives to a generated file is read back by the
    parser as the year, the month and the number it was made from, and the
    directory scan selects it: for every target with a year in 0..9999 and
    a month in 0..99, and every number from 0 on. *)
Theorem pdf_name_roundtrip (target : InvoiceTarget) (next : Z) :
  0 ≤ year target ≤ 9999 → 0 ≤ month target ≤ 99 → 0 ≤ next →
  _parse_invoice_filename (pdf_name target next)
  = Ok (Some (year target), Some (month target), Some next)
  ∧ glob_invoice_pdf (pdf_name target next) = true.
Proof.
  intros Hy Hm Hn.
  pose proof (pdf_name_invoice_filename target next Hy Hm Hn) as Hname.
  pose proof (invoice_filename_selected _ _ _ _ Hname) as Hglob.
  split; [|done]. by apply parse_selected.
Qed.

Lemma pdf_name_roundtrip_witness :
  _parse_invoice_filename (pdf_name {| month := 7; year := 2031 |} 150)
  = Ok (Some 2031, Some 7, Some 150)
  ∧ glob_invoice_pdf (pdf_name {| month := 7; year := 2031 |} 150) = true.
Proof.
  apply (pdf_name_roundtrip {| month := 7; year := 2031 |} 150); simpl; lia.
Defined.

(** ** Numbers and names are never reused *)

Lemma max_sequence_number_nonneg entries v :
  max_sequence_number entries v → 0 ≤ v.
Proof.
  intros [_ [(name & y & m & _ & Hname)|[-> _]]]; [|done].
  destruct Hname as (Y & M & N & HF & _ & _ & _ & ->).
  apply numeral_nonneg, HF.
Qed.

Lemma max_sequence_number_unique entries v v' :
  max_sequence_number entries v → max_sequence_number entries v' → v = v'.
Proof.
  intros [Hub [(name & y & m & Hin & Hname)|[-> Hno]]]
         [Hub' [(name' & y' & m' & Hin' & Hname')|[-> Hno']]].
  - pose proof (Hub _ _ _ _ Hin' Hname'). pose proof (Hub' _ _ _ _ Hin Hname).
    lia.
  - by destruct (Hno' _ _ _ _ Hin Hname).
  - by destruct (Hno _ _ _ _ Hin' Hname').
  - done.
Qed.

Lemma next_number_inv file entries next :
  next_number file (Some entries) = Ok next →
  ∃ c v, _read_last_invoice_number file = Ok c
         ∧ _max_invoice_number_from_pdfs (Some entries) = Ok v
         ∧ max_sequence_number entries v
         ∧ next = Z.max c v + 1.
Proof.
  unfold next_number.
  destruct (_read_last_invoice_number file) as [c|e]; [|done].
  destruct (max_invoice_number_spec entries) as (v & Hv & Hmax).
  rewrite Hv. cbn. intros [= <-]. eauto 10.
Qed.

Lemma next_number_above file entries next :
  next_number file (Some entries) = Ok next →
  1 ≤ next
  ∧ (∀ name y m n, name ∈ entries → invoice_filename name y m n → n < next)
  ∧ ∀ target, 0 ≤ year target ≤ 9999 → 0 ≤ month target ≤ 99 →
              pdf_name target next ∉ entries.
Proof.
  intros (c & v & Hc & _ & Hmax & ->)%next_number_inv.
  pose proof (max_sequence_number_nonneg _ _ Hmax) as Hv.
  assert (∀ name y m n,
            name ∈ entries → invoice_filename name y m n
            → n < Z.max c v + 1) as Hlt.
  { intros name y m n Hin Hname.
    pose proof (proj1 Hmax _ _ _ _ Hin Hname). lia. }
  split_and!; [lia|done|].
  intros target Hy Hm Hin.
  pose proof (pdf_name_invoice_filename target (Z.max c v + 1) Hy Hm
                ltac:(lia)) as Hname.
  pose proof (Hlt _ _ _ _ Hin Hname). lia.
Qed.

(** X2. The number of the next invoice is at least 1, greater than the
    value read from the counter file and greater than the number of every
    invoice file name of the directory; so the name made from it, for
    whatever period, is not a name of the directory. *)
Theorem next_number_is_fresh (file : option string) (entries : list string)
    (next : Z) :
  next_number file (Some entries) = Ok next →
  1 ≤ next
  ∧ (∀ c, _read_last_invoice_number file = Ok c → c < next)
  ∧ (∀ name y m n, name ∈ entries → invoice_filename name y m n → n < next)
  ∧ ∀ target, 0 ≤ year target ≤ 9999 → 0 ≤ month target ≤ 99 →
              pdf_name target next ∉ entries.
Proof.
  intros Hnext.
  destruct (next_number_above _ _ _ Hnext) as (H1 & H2 & H3).
  split_and!; try done.
  intros c Hc.
  apply next_number_inv in Hnext as (c' & v & Hc' & _ & _ & ->).
  rewrite Hc in Hc'. injection Hc' as <-. lia.
Qed.

Lemma next_number_is_fresh_witness :
  1 ≤ 8
  ∧ (∀ c, _read_last_invoice_number (Some "3") = Ok c → c < 8)
  ∧ (∀ name y m n,
       name ∈ ["Invoice_2025_11_#7.pdf"; "Invoice_2025_12_#8.PDF"] →
       invoice_filename name y m n → n < 8)
  ∧ ∀ target, 0 ≤ year target ≤ 9999 → 0 ≤ month target ≤ 99 →
              pdf_name target 8
              ∉ ["Invoice_2025_11_#7.pdf"; "Invoice_2025_12_#8.PDF"].
Proof.
  apply (next_number_is_fresh (Some "3")
           ["Invoice_2025_11_#7.pdf"; "Invoice_2025_12_#8.PDF"] 8).
  by vm_compute.
Defined.

(** X3. What a run may touch: it moves only the temporary PDF, and only to
    a name of the invoices directory that the listing does not hold and
    that the existence test did not find; it removes only its two temporary
    files; it writes only the temporary HTML and the counter file. No
    invoice of the directory is overwritten or removed. *)
Theorem main_spares_invoices (w : World) :
  (∀ src dst, EvMove src dst ∈ trace (main w) →
     src = TempPdf
     ∧ ∃ name, dst = InvoicePdf name ∧ (name ∉ invoices w)
               ∧ pdf_out_exists w name = false)
  ∧ (∀ p, EvRemoveIfExists p ∈ trace (main w) → p = TempHtml ∨ p = TempPdf)
  ∧ (∀ p content, EvWriteText p content ∈ trace (main w) →
       p = TempHtml ∨ p = NumberPath)
  ∧ (∀ src dst, EvHtmlToPdf src dst ∈ trace (main w) →
       src = TempHtml ∧ dst = TempPdf).
Proof.
  split_and!.
  - intros src dst. main_cases w; cbn [app trace]; in_trace.
    all: intros H; repeat destruct H as [H|H]; try done.
    all: injection H as -> ->; split; [done|]; eexists; split; [done|].
    all: split; [|done].
    all: apply prompt_target_valid in Hprompt as [? ?].
    all: destruct (next_number_above _ _ _ Hnext) as (_ & _ & Hfresh).
    all: apply Hfresh; lia.
  - intros p. main_cases w; cbn [app trace]; in_trace.
  - intros p content. main_cases w; cbn [app trace]; in_trace.
  - intros src dst. main_cases w; cbn [app trace]; in_trace.
Qed.

(** ** The order of the listing does not matter *)

Lemma target_lt_irrefl t : ¬ target_lt t t.
Proof. unfold target_lt. lia. Qed.

Lemma target_lt_trans a b c : target_lt a b → target_lt b c → target_lt a c.
Proof. unfold target_lt. lia. Qed.

Lemma sorted_targets_unique (l1 l2 : list InvoiceTarget) :
  StronglySorted target_lt l1 → StronglySorted target_lt l2 →
  (∀ t, t ∈ l1 ↔ t ∈ l2) → l1 = l2.
Proof.
  intros H1. revert l2. induction H1 as [|a l1 Hl1 IH Ha];
    intros l2 H2 Hiff.
  - destruct l2 as [|b l2]; [done|].
    assert (b ∈ []) as Hb by (apply Hiff; left). by apply elem_of_nil in Hb.
  - destruct H2 as [|b l2 Hl2 Hb].
    + assert (a ∈ []) as Hin by (apply Hiff; left). by apply elem_of_nil in Hin.
    + rewrite Forall_forall in Ha, Hb.
      assert (a = b) as <-.
      { assert (a ∈ b :: l2) as [->|Hin]%elem_of_cons by (apply Hiff; left);
          [done|].
        assert (b ∈ a :: l1) as [->|Hin']%elem_of_cons by (apply Hiff; left);
          [done|].
        destruct (target_lt_irrefl a).
        eapply target_lt_trans; [by apply Ha|by apply Hb]. }
      f_equal. apply IH; [done|]. intros t. split; intros Hin.
      * assert (t ∈ a :: l2) as [->|?]%elem_of_cons
          by (apply Hiff; by right); [|done].
        by destruct (target_lt_irrefl a); apply Ha.
      * assert (t ∈ a :: l1) as [->|?]%elem_of_cons
          by (apply Hiff; by right); [|done].
        by destruct (target_lt_irrefl a); apply Hb.
Qed.

(** X4. Discovery and the greatest number depend on which names the
    directory holds, not on the order in which the file system lists them,
    nor on a name listed twice. *)
Theorem scans_ignore_listing_order (entries entries' : list string) :
  (∀ name, name ∈ entries ↔ name ∈ entries') →
  _list_generated_targets (Some entries)
  = _list_generated_targets (Some entries')
  ∧ _max_invoice_number_from_pdfs (Some entries)
    = _max_invoice_number_from_pdfs (Some entries').
Proof.
  intros Hsame. split.
  - destruct (list_generated_targets_loop entries) as (s & Hs & _).
    destruct (list_generated_targets_elem entries) as (l & Hl & Hiff).
    destruct (list_generated_targets_loop entries') as (s' & Hs' & _).
    destruct (list_generated_targets_elem entries') as (l' & Hl' & Hiff').
    assert (∀ (s : gset (Z * Z)),
      StronglySorted target_lt
        ((λ ym, {| month := ym.2; year := ym.1 |})
           <$> merge_sort tuple_le (elements s))) as Hsorted.
    { intros s0. eapply StronglySorted_fmap;
        [|apply StronglySorted_strict;
           [apply StronglySorted_merge_sort; apply _|]].
      - intros [y1 m1] [y2 m2] [Hle Hne]. unfold tuple_le, target_lt in *.
        simpl in *. destruct (decide (m1 = m2)) as [->|]; [|lia].
        assert (y1 ≠ y2) by congruence. lia.
      - rewrite merge_sort_Permutation. apply NoDup_elements. }
    rewrite Hl, Hl'. f_equal. apply sorted_targets_unique.
    + rewrite Hl in Hs. injection Hs as ->. apply Hsorted.
    + rewrite Hl' in Hs'. injection Hs' as ->. apply Hsorted.
    + intros t. rewrite Hiff, Hiff'. split;
        intros (Hm & name & n & Hin & Hname); (split; [done|]);
        exists name, n; (split; [by apply Hsame|done]).
  - destruct (max_invoice_number_spec entries) as (v & -> & Hmax).
    destruct (max_invoice_number_spec entries') as (v' & -> & Hmax').
    f_equal. apply (max_sequence_number_unique entries); [done|].
    destruct Hmax' as [Hub Hatt]. split.
    + intros name y m n Hin. apply Hub. by apply Hsame.
    + destruct Hatt as [(name & y & m & Hin & Hname)|[-> Hno]].
      * left. exists name, y, m. split; [by apply Hsame|done].
      * right. split; [done|]. intros name y m n Hin. apply Hno.
        by apply Hsame.
Qed.

Lemma scans_ignore_listing_order_witness :
  _list_generated_targets
    (Some ["Invoice_2025_02_#2.pdf"; "Invoice_01_2025_#1.pdf"])
  = _list_generated_targets
      (Some ["Invoice_01_2025_#1.pdf"; "Invoice_2025_02_#2.pdf";
             "Invoice_01_2025_#1.pdf"])
  ∧ _max_invoice_number_from_pdfs
      (Some ["Invoice_2025_02_#2.pdf"; "Invoice_01_2025_#1.pdf"])
    = _max_invoice_number_from_pdfs
        (Some ["Invoice_01_2025_#1.pdf"; "Invoice_2025_02_#2.pdf";
               "Invoice_01_2025_#1.pdf"]).
Proof.
  apply scans_ignore_listing_order. intros name.
  rewrite !elem_of_cons, !elem_of_nil. tauto.
Defined.

(** ** What the prompt accepts *)

Lemma fullmatch_none_not_accepted default_year raw :
  fullmatch_m raw = None → fullmatch_m_y raw = None →
  fullmatch_y_m raw = None →
  ∀ m y, ¬ accepted_form default_year raw m y.
Proof.
  intros H1 H2 H3 m y Hform. revert H1 H2 H3.
  destruct Hform as [M HM|M Y HM HY|M Y HM HY]; intros H1 H2 H3.
  - by rewrite (fullmatch_month M HM) in H1.
  - destruct (fullmatch_month_year M Y HM HY) as [_ H]. by rewrite H in H2.
  - destruct (fullmatch_year_month M Y HM HY) as (_ & _ & H).
    by rewrite H in H3.
Qed.

Lemma accepted_form_dec default_year raw :
  (∃ m y, accepted_form default_year raw m y)
  ∨ (∀ m y, ¬ accepted_form default_year raw m y).
Proof.
  destruct (fullmatch_m raw) as [g|] eqn:H1.
  { apply fullmatch_m_Some in H1 as [-> HM]. left.
    eexists _, _. by apply form_month. }
  destruct (fullmatch_m_y raw) as [[g1 g2]|] eqn:H2.
  { apply fullmatch_m_y_Some in H2 as (-> & HM & HY). left.
    eexists _, _. by apply form_month_year. }
  destruct (fullmatch_y_m raw) as [[g1 g2]|] eqn:H3.
  { apply fullmatch_y_m_Some in H3 as (-> & HY & HM). left.
    eexists _, _. by apply form_year_month. }
  right. by apply fullmatch_none_not_accepted.
Qed.

Lemma checked_target_Ok m y t :
  checked_target m y = Ok t
  ↔ (1 ≤ m ≤ 12) ∧ (1900 ≤ y ≤ 3000) ∧ t = {| month := m; year := y |}.
Proof.
  unfold checked_target.
  destruct ((1 <=? m) && (m <=? 12)) eqn:Hm;
    destruct ((1900 <=? y) && (y <=? 3000)) eqn:Hy; cbn;
    rewrite ?andb_true_iff, ?andb_false_iff, ?Z.leb_le, ?Z.leb_gt in *.
  - split; [intros [= <-]; split_and!; (lia || done)|by intros (_ & _ & ->)].
  - split; [done|]. lia.
  - split; [done|]. lia.
  - split; [done|]. lia.
Qed.

(** X5. The prompt returns a target exactly when the line, white space
    around it set aside, is in one of the accepted forms and denotes a
    month in 1..12 and a year in 1900..3000; the target is then that month
    and that year. *)
Theorem prompt_target_accepts (line : string) (default_year : Z)
    (t : InvoiceTarget) :
  outcome (_prompt_target (Some line) default_year) = Ok t
  ↔ ∃ m y, accepted_form default_year (strip line) m y
           ∧ (1 ≤ m ≤ 12) ∧ (1900 ≤ y ≤ 3000)
           ∧ t = {| month := m; year := y |}.
Proof.
  split.
  - intros Hok.
    destruct (accepted_form_dec default_year (strip line))
      as [(m & y & Hform)|Hno].
    + rewrite (prompt_accepted _ _ _ _ Hform) in Hok.
      apply checked_target_Ok in Hok. eauto 10.
    + by rewrite (prompt_not_accepted _ _ Hno) in Hok.
  - intros (m & y & Hform & Hm & Hy & ->).
    rewrite (prompt_accepted _ _ _ _ Hform). by apply checked_target_Ok.
Qed.

Lemma no_space_strip s :
  all_chars (λ a, negb (is_space a)) s = true → strip s = s.
Proof.
  intros Hs. apply strip_id.
  - destruct s as [|c s]; [done|]. simpl in *.
    apply andb_true_iff in Hs as [Hc _]. by apply negb_true_iff.
  - induction s as [|c s IH]; [done|].
    simpl in Hs. apply andb_true_iff in Hs as [Hc Hs].
    destruct s as [|d s]; [by apply negb_true_iff|by apply IH].
Qed.

Lemma digits_no_space s :
  all_digits s = true → all_chars (λ a, negb (is_space a)) s = true.
Proof.
  apply all_chars_impl. intros c Hc.
  by destruct (digit_not_space c Hc) as [-> _].
Qed.

(** X6. A period as the program displays it, [YYYY-MM], typed back at the
    prompt gives the same target, whatever the current year; and its month
    alone, [MM], gives it when the year is the current one. This holds for
    every target with a month in 1..12 and a year in 1900..3000. *)
Theorem displayed_period_is_accepted (t : InvoiceTarget) (default_year : Z) :
  valid_target t →
  outcome (_prompt_target (Some (ym_str t)) default_year) = Ok t
  ∧ outcome (_prompt_target (Some (month_str t)) (year t)) = Ok t.
Proof.
  intros [Hm Hy].
  destruct (pdf_name_fields t 0) as (((HY & HlY) & (HM & HlM) & _) & HnY & HnM & _);
    [lia..|].
  assert (month_text (month_str t)) as HMt by (split; [done|by right]).
  assert (year_text (year_str t)) as HYt by done.
  assert (t = {| month := month t; year := year t |}) as Ht by (by destruct t).
  split.
  - rewrite (prompt_accepted _ _ (month t) (year t)).
    + apply checked_target_Ok. split_and!; (lia || done).
    + rewrite no_space_strip.
      * pose proof (form_year_month default_year _ _ HMt HYt) as Hform.
        by rewrite HnM, HnY in Hform.
      * unfold ym_str.
        by rewrite !all_chars_app, (digits_no_space _ HM),
             (digits_no_space _ HY).
  - rewrite (prompt_accepted _ _ (month t) (year t)).
    + apply checked_target_Ok. split_and!; (lia || done).
    + rewrite no_space_strip by (by apply digits_no_space).
      pose proof (form_month (year t) _ HMt) as Hform.
      by rewrite HnM in Hform.
Qed.

Lemma displayed_period_is_accepted_witness :
  outcome (_prompt_target (Some (ym_str {| month := 2; year := 2026 |})) 1999)
  = Ok {| month := 2; year := 2026 |}
  ∧ outcome (_prompt_target (Some (month_str {| month := 2; year := 2026 |}))
               (year {| month := 2; year := 2026 |}))
    = Ok {| month := 2; year := 2026 |}.
Proof.
  apply (displayed_period_is_accepted {| month := 2; year := 2026 |} 1999).
  unfold valid_target. simpl. lia.
Defined.

(** ** The configuration *)

Lemma string_ind2 (P : string → Prop) :
  P "" → (∀ c, P (String c "")) →
  (∀ c d r, P r → P (String d r) → P (String c (String d r))) →
  ∀ s, P s.
Proof.
  intros H0 H1 H2 s.
  assert (P s ∧ ∀ c, P (String c s)) as [? _]; [|done].
  induction s as [|d r [IH IH']]; [by split|].
  split; [apply IH'|]. intros c. by apply H2.
Qed.

Lemma normalize_head d r :
  ∃ d' r', _normalize_env_value (String d r) = String d' r'
           ∧ (d' = LF ∨ d' = d).
Proof.
  destruct r as [|e r]; cbn; [eauto|].
  destruct (_ && _); eauto.
Qed.

Lemma normalize_cons c d r :
  _normalize_env_value (String c (String d r))
  = if Ascii.eqb c "\" && Ascii.eqb d "n"
    then String LF (_normalize_env_value r)
    else String c (_normalize_env_value (String d r)).
Proof. reflexivity. Qed.

Lemma has_escaped_newline_cons c d r :
  has_escaped_newline (String c (String d r))
  = (Ascii.eqb c "\" && Ascii.eqb d "n") || has_escaped_newline (String d r).
Proof. reflexivity. Qed.

(** X7. [.env] values: after normalisation no backslash-n escape is left,
    a value is changed exactly when it held one, and normalising twice is
    normalising once. *)
Theorem normalize_env_value_spec (value : string) :
  has_escaped_newline (_normalize_env_value value) = false
  ∧ (_normalize_env_value value = value
     ↔ has_escaped_newline value = false)
  ∧ _normalize_env_value (_normalize_env_value value)
    = _normalize_env_value value.
Proof.
  assert (∀ v, has_escaped_newline (_normalize_env_value v) = false) as Hclean.
  { induction v as [| |c d r IHr IHdr] using string_ind2; [done..|].
    rewrite normalize_cons.
    destruct (Ascii.eqb c "\" && Ascii.eqb d "n") eqn:Hesc.
    - destruct (_normalize_env_value r); [done|].
      rewrite has_escaped_newline_cons, IHr. reflexivity.
    - destruct (normalize_head d r) as (d' & r' & Hn & Hd').
      rewrite Hn in IHdr |- *.
      rewrite has_escaped_newline_cons, IHdr, orb_false_r.
      apply andb_false_iff. apply andb_false_iff in Hesc as [Hc|Hd];
        [by left|].
      destruct (Ascii.eqb_spec c "\") as [->|]; [right|by left].
      by destruct Hd' as [-> | ->]. }
  assert (∀ v, _normalize_env_value v = v ↔ has_escaped_newline v = false)
    as Hsame.
  { induction v as [| |c d r IHr IHdr] using string_ind2; [done..|].
    rewrite normalize_cons, has_escaped_newline_cons.
    destruct (Ascii.eqb c "\" && Ascii.eqb d "n") eqn:Hesc.
    - apply andb_true_iff in Hesc as [->%Ascii.eqb_eq _]. by split.
    - rewrite orb_false_l. split.
      + intros [= H]. by apply IHdr.
      + intros H. apply IHdr in H. by rewrite H. }
  split_and!; [done..|]. by apply Hsame.
Qed.

Lemma filter_sublist {A} (f : A → bool) (l : list A) :
  sublist (List.filter f l) l.
Proof.
  induction l as [|a l IH]; cbn; [constructor|].
  destruct (f a); by constructor.
Qed.

Lemma key_missing_spec items k :
  key_missing
    (foldl (λ (env : gmap string string) kv,
              match kv with
              | (Some k, Some v) => <[k := _normalize_env_value v]> env
              | _ => env
              end) ∅ items) k = true
  ↔ missing_or_empty items k.
Proof.
  unfold key_missing, missing_or_empty.
  rewrite load_env_lookup, lookup_empty.
  destruct (last_value k items) as [v|]; [|by split; [left|]].
  rewrite String.eqb_eq, normalize_empty. split; [by intros ->; right|].
  by intros [?|[= ->]].
Qed.

Lemma load_env_Ok items env :
  _load_env items = Ok env →
  (∀ k, k ∈ REQUIRED_ENV_KEYS → ¬ missing_or_empty items k)
  ∧ ∀ k, env !! k = _normalize_env_value <$> last_value k items.
Proof.
  unfold _load_env.
  match goal with
  | |- context [List.filter ?f ?l] =>
      assert (∀ k, k ∈ l → missing_or_empty items k → k ∈ List.filter f l)
        as Hin;
      [|destruct (List.filter f l) as [|k0 missing]; [|done]]
  end.
  - intros k Hk Hmiss. apply list_elem_of_In, filter_In.
    split; [by apply list_elem_of_In|by apply key_missing_spec].
  - intros [= <-]. split.
    + intros k Hk Hmiss. by eapply elem_of_nil, Hin.
    + intros k. rewrite load_env_lookup, lookup_empty.
      by destruct (last_value k items).
Qed.

(** X8. Loading the configuration. It succeeds exactly when no required
    key is missing or empty; the dictionary it returns gives every key,
    required or not, the normalised value of the last item that sets it.
    When it fails, the message lists the required keys that are missing or
    empty, those and no others, in the order of [REQUIRED_ENV_KEYS]. *)
Theorem load_env_spec (items : list (option string * option string)) :
  match _load_env items with
  | Ok env =>
      (∀ k, k ∈ REQUIRED_ENV_KEYS → ¬ missing_or_empty items k)
      ∧ ∀ k, env !! k = _normalize_env_value <$> last_value k items
  | Raise e =>
      ∃ missing,
        e = ValueError (MsgMissingKeys missing) ∧ missing ≠ []
        ∧ (∀ k, k ∈ missing
                ↔ k ∈ REQUIRED_ENV_KEYS ∧ missing_or_empty items k)
        ∧ sublist missing REQUIRED_ENV_KEYS
  end.
Proof.
  unfold _load_env.
  match goal with
  | |- context [List.filter ?f ?l] =>
      pose proof (filter_sublist f l) as Hsub;
      assert (∀ k, k ∈ List.filter f l ↔ k ∈ l ∧ missing_or_empty items k)
        as Hiff;
      [|destruct (List.filter f l) as [|k0 missing]]
  end.
  - intros k. rewrite <- key_missing_spec, !list_elem_of_In. apply filter_In.
  - split.
    + intros k Hk Hmiss. eapply elem_of_nil, Hiff. by split.
    + intros k. rewrite load_env_lookup, lookup_empty.
      by destruct (last_value k items).
  - eexists. by split_and!.
Qed.


(** ** What a run leaves behind *)

Lemma files_after_cleanup tr files :
  (∃ tr', tr = tr' ++ [EvRemoveIfExists TempHtml; EvRemoveIfExists TempPdf]) →
  files_after tr files TempHtml = None ∧ files_after tr files TempPdf = None.
Proof.
  intros [tr' ->]. unfold files_after. rewrite foldl_app.
  cbn [foldl apply_event]. split.
  - by rewrite fn_lookup_insert_ne, fn_lookup_insert.
  - by rewrite fn_lookup_insert.
Qed.

(** X9. The temporary files. Every run that renders the template ends by
    removing the temporary HTML file and the temporary PDF, whether it
    succeeds, stops on an error or is left by an exception, so that neither
    file is there afterwards; a run that does not render removes nothing. *)
Theorem temporary_files_removed (w : World) (files : path → option string) :
  ((∃ context, EvRender context ∈ trace (main w)) →
   (∃ tr, trace (main w)
          = tr ++ [EvRemoveIfExists TempHtml; EvRemoveIfExists TempPdf])
   ∧ files_after (trace (main w)) files TempHtml = None
   ∧ files_after (trace (main w)) files TempPdf = None)
  ∧ (∀ p, EvRemoveIfExists p ∈ trace (main w) →
          ∃ context, EvRender context ∈ trace (main w)).
Proof.
  split.
  - intros Hrendered.
    assert (∃ tr, trace (main w)
                  = tr ++ [EvRemoveIfExists TempHtml; EvRemoveIfExists TempPdf])
      as Hend; [|split; [done|by apply files_after_cleanup]].
    revert Hrendered. main_cases w; cbn [app trace]; intros [c Hin].
    all: first [ by (exfalso; revert Hin; in_trace)
               | repeat (first [by exists [] | apply ex_tail_cons]) ].
  - intros p. main_cases w; cbn [app trace]; intros Hin.
    all: first [ by (exfalso; revert Hin; in_trace)
               | eexists; find_event ].
Qed.

Lemma temporary_files_removed_witness :
  (∃ tr, trace (main fair_world)
         = tr ++ [EvRemoveIfExists TempHtml; EvRemoveIfExists TempPdf])
  ∧ files_after (trace (main fair_world)) (λ _, Some "text") TempHtml = None
  ∧ files_after (trace (main fair_world)) (λ _, Some "text") TempPdf = None.
Proof.
  apply (proj1 (temporary_files_removed fair_world (λ _, Some "text"))).
  exists fair_context. rewrite fair_world_trace. cbn [app]. find_event.
Defined.

Lemma next_number_unreadable file entries e :
  _read_last_invoice_number file = Raise e →
  next_number file entries = Raise e.
Proof. intros H. unfold next_number. by rewrite H. Qed.

(** X10. A counter file that cannot be read as an integer. No run in such
    a world renders, converts or moves anything or writes the counter, and
    the status of the process is 1. The error of the reading is not caught:
    it leaves [main] in exactly the runs that get past the prompt, the
    environment check and the configuration. *)
Theorem unreadable_counter_stops_run (w : World) (err : exn) :
  _read_last_invoice_number (number_file w) = Raise err →
  exit_status (main w) = 1
  ∧ (∀ c, EvRender c ∉ trace (main w))
  ∧ existsb makes_pdf (trace (main w)) = false
  ∧ existsb updates_counter (trace (main w)) = false
  ∧ (outcome (main w) = Raise err
     ↔ env_exists w = true ∧ template_exists w = true
       ∧ (∃ t, outcome (_prompt_target (input_line w) (today_year w)) = Ok t)
       ∧ outcome (_ensure_playwright_ready w) = Ok ()
       ∧ ∃ env, _load_env (dotenv_values w) = Ok env).
Proof.
  intros Hc.
  pose proof (next_number_unreadable _ (Some (invoices w)) _ Hc) as Hraise.
  unfold exit_status.
  main_cases w; cbn [app trace outcome]; try congruence.
  all: split_and!; [done|intros c; in_trace|done|done|].
  all: split;
    [try done; intros _; split_and!; eauto; congruence
    |intros (? & ? & [? ?] & ? & [? ?]); congruence].
Qed.

Lemma unreadable_counter_stops_run_witness :
  exit_status (main (with_number_file (Some "12a") fair_world)) = 1.
Proof.
  apply (unreadable_counter_stops_run
           (with_number_file (Some "12a") fair_world)
           (ValueError (MsgInvalidCounter "12a"))).
  reflexivity.
Defined.

(** ** The warning *)

Lemma existsb_same_period (tgt : InvoiceTarget) (generated : list InvoiceTarget) :
  existsb (λ t, (year t =? year tgt) && (month t =? month tgt)) generated
  = true
  ↔ tgt ∈ generated.
Proof.
  rewrite existsb_exists. split.
  - intros (t & Hin%list_elem_of_In & Heq).
    apply andb_true_iff in Heq as [Hy%Z.eqb_eq Hm%Z.eqb_eq].
    destruct t, tgt; simpl in *; by subst.
  - intros Hin. exists tgt. split; [by apply list_elem_of_In|].
    by rewrite !Z.eqb_refl.
Qed.

Lemma warned_iff_present entries generated tgt :
  _list_generated_targets (Some entries) = Ok generated →
  (1 ≤ month tgt ≤ 12) →
  existsb (λ t, (year t =? year tgt) && (month t =? month tgt)) generated
  = true
  ↔ ∃ name n, name ∈ entries
              ∧ invoice_filename name (year tgt) (month tgt) n.
Proof.
  intros Hgen Hm. rewrite existsb_same_period.
  destruct (list_generated_targets_elem entries) as (l & Hl & Hiff).
  rewrite Hl in Hgen. injection Hgen as <-. rewrite Hiff. tauto.
Qed.

(** X11. The warning. In a run that reaches the prompt and gets a target
    from it, the warning is printed exactly when the directory holds an
    invoice file name, in the current or the legacy format, of the year and
    the month of the target; it names that period and no other. *)
Theorem warning_iff_period_present (w : World) (tgt : InvoiceTarget) :
  env_exists w = true → template_exists w = true →
  outcome (_prompt_target (input_line w) (today_year w)) = Ok tgt →
  (EvPrint (OutWarning (ym_str tgt)) ∈ trace (main w)
   ↔ ∃ name n, name ∈ invoices w
               ∧ invoice_filename name (year tgt) (month tgt) n)
  ∧ (∀ period, EvPrint (OutWarning period) ∈ trace (main w) →
               period = ym_str tgt).
Proof.
  intros He Ht Hp. pose proof (prompt_target_valid _ _ _ Hp) as [Hm _].
  revert He Ht Hp.
  main_cases w; cbn [app trace]; intros He Ht Hp; try done;
    injection Hp as ->.
  all: rewrite <- (warned_iff_present _ _ _ Hgen Hm), Hwarn.
  all: split; [split; [try done; in_trace
                      |intros Hyes; first [done | find_event]]
              |intros period; in_trace].
Qed.

Lemma warning_iff_period_present_witness :
  EvPrint (OutWarning (ym_str {| month := 3; year := 2026 |}))
  ∈ trace (main (with_invoices ["Invoice_03_2026_#4.pdf"] fair_world)).
Proof.
  apply (proj1 (warning_iff_period_present
                  (with_invoices ["Invoice_03_2026_#4.pdf"] fair_world)
                  {| month := 3; year := 2026 |}
                  eq_refl eq_refl eq_refl)).
  exists "Invoice_03_2026_#4.pdf", 4. split; [left|].
  exists "2026", "03", "4". by vm_compute; split_and!; try right.
Defined.

(** ** What the template is rendered with *)

Lemma required_key_not_computed k :
  k ∈ REQUIRED_ENV_KEYS →
  k ≠ "INVOICE_NUMBER" ∧ k ≠ "CREATION_DATE" ∧ k ≠ "DUE_DATE".
Proof.
  unfold REQUIRED_ENV_KEYS. rewrite !elem_of_cons, elem_of_nil.
  intros H. repeat (destruct H as [->|H]); done.
Qed.

Lemma render_context_lookup env tgt num k :
  render_context env tgt num !! k
  = if String.eqb k "DUE_DATE"
    then Some (year_str tgt +:+ "-" +:+ month_str tgt +:+ "-30")
    else if String.eqb k "CREATION_DATE"
    then Some (year_str tgt +:+ "-" +:+ month_str tgt +:+ "-01")
    else if String.eqb k "INVOICE_NUMBER" then Some (py_str num)
    else env !! k.
Proof.
  unfold render_context.
  destruct (String.eqb_spec k "DUE_DATE") as [->|H1];
    [by rewrite lookup_insert_eq|rewrite lookup_insert_ne by done].
  destruct (String.eqb_spec k "CREATION_DATE") as [->|H2];
    [by rewrite lookup_insert_eq|rewrite lookup_insert_ne by done].
  destruct (String.eqb_spec k "INVOICE_NUMBER") as [->|H3];
    [by rewrite lookup_insert_eq|by rewrite lookup_insert_ne].
Qed.

(** X12. What the template is rendered with. Whenever the template is
    rendered, the context holds the number of the invoice, the first day of
    the period as creation date and its day 30 as due date, these three
    replacing entries of the same names of the configuration; every
    required key has a value that is not empty; and every other key has the
    normalised value the [.env] file gives it last. *)
Theorem render_context_complete (w : World) (context : gmap string string) :
  EvRender context ∈ trace (main w) →
  ∃ tgt num,
    outcome (_prompt_target (input_line w) (today_year w)) = Ok tgt
    ∧ next_number (number_file w) (Some (invoices w)) = Ok num
    ∧ context !! "INVOICE_NUMBER" = Some (py_str num)
    ∧ context !! "CREATION_DATE"
      = Some (year_str tgt +:+ "-" +:+ month_str tgt +:+ "-01")
    ∧ context !! "DUE_DATE"
      = Some (year_str tgt +:+ "-" +:+ month_str tgt +:+ "-30")
    ∧ (∀ k, k ∈ REQUIRED_ENV_KEYS →
            ∃ v, context !! k = Some v ∧ v ≠ "")
    ∧ (∀ k, k ∉ ["INVOICE_NUMBER"; "CREATION_DATE"; "DUE_DATE"] →
            context !! k
            = _normalize_env_value <$> last_value k (dotenv_values w)).
Proof.
  assert (∀ env tgt num,
    (∀ k, k ∈ REQUIRED_ENV_KEYS → ¬ missing_or_empty (dotenv_values w) k) →
    (∀ k, env !! k = _normalize_env_value <$> last_value k (dotenv_values w)) →
    context = render_context env tgt num →
    context !! "INVOICE_NUMBER" = Some (py_str num)
    ∧ context !! "CREATION_DATE"
      = Some (year_str tgt +:+ "-" +:+ month_str tgt +:+ "-01")
    ∧ context !! "DUE_DATE"
      = Some (year_str tgt +:+ "-" +:+ month_str tgt +:+ "-30")
    ∧ (∀ k, k ∈ REQUIRED_ENV_KEYS →
            ∃ v, context !! k = Some v ∧ v ≠ "")
    ∧ (∀ k, k ∉ ["INVOICE_NUMBER"; "CREATION_DATE"; "DUE_DATE"] →
            context !! k
            = _normalize_env_value <$> last_value k (dotenv_values w)))
    as Hcontext.
  { intros env tgt num Hreq Hval ->.
    assert (∀ k, k ≠ "INVOICE_NUMBER" → k ≠ "CREATION_DATE" → k ≠ "DUE_DATE" →
      render_context env tgt num !! k
      = _normalize_env_value <$> last_value k (dotenv_values w)) as Hother.
    { intros k H1 H2 H3. rewrite render_context_lookup, <- Hval.
      by rewrite !(proj2 (String.eqb_neq _ _)). }
    split_and!; [by rewrite render_context_lookup..| |].
    - intros k Hk.
      destruct (required_key_not_computed k Hk) as (H1 & H2 & H3).
      rewrite (Hother k H1 H2 H3).
      specialize (Hreq k Hk). unfold missing_or_empty in Hreq.
      destruct (last_value k (dotenv_values w)) as [v|];
        [|by destruct Hreq; left].
      eexists. split; [done|]. rewrite normalize_empty. intros ->.
      apply Hreq. by right.
    - intros k Hk. apply Hother; intros ->; apply Hk; find_event. }
  main_cases w; cbn [app trace]; intros Hin;
    first [ by (exfalso; revert Hin; in_trace) | idtac ].
  all: exists target, next; split; [done|split; [done|]].
  all: destruct (load_env_Ok _ _ Hload) as [Hreq Hval].
  all: apply (Hcontext env target next Hreq Hval).
  all: unfold render_context; revert Hin; in_trace.
Qed.

Lemma render_context_complete_witness :
  ∃ tgt num,
    outcome (_prompt_target (input_line fair_world) (today_year fair_world))
    = Ok tgt
    ∧ next_number (number_file fair_world) (Some (invoices fair_world))
      = Ok num
    ∧ fair_context !! "INVOICE_NUMBER" = Some (py_str num)
    ∧ fair_context !! "CREATION_DATE"
      = Some (year_str tgt +:+ "-" +:+ month_str tgt +:+ "-01")
    ∧ fair_context !! "DUE_DATE"
      = Some (year_str tgt +:+ "-" +:+ month_str tgt +:+ "-30")
    ∧ (∀ k, k ∈ REQUIRED_ENV_KEYS →
            ∃ v, fair_context !! k = Some v ∧ v ≠ "")
    ∧ (∀ k, k ∉ ["INVOICE_NUMBER"; "CREATION_DATE"; "DUE_DATE"] →
            fair_context !! k
            = _normalize_env_value
                <$> last_value k (dotenv_values fair_world)).
Proof.
  apply (render_context_complete fair_world fair_context).
  rewrite fair_world_trace. cbn [app]. find_event.
Defined.

(** ** From one run to the next *)

Lemma invoice_filename_functional name y m n y' m' n' :
  invoice_filename name y m n → invoice_filename name y' m' n' →
  y = y' ∧ m = m' ∧ n = n'.
Proof.
  intros H H'. pose proof (invoice_filename_selected _ _ _ _ H) as Hglob.
  apply (parse_selected _ _ _ _ Hglob) in H, H'. split_and!; congruence.
Qed.

Lemma read_counter_line n :
  _read_last_invoice_number (Some (py_str n +:+ String LF "")) = Ok n.
Proof.
  rewrite read_counter_text; rewrite strip_py_str_line.
  - by rewrite py_int_py_str.
  - destruct n; [done|rewrite py_str_pos; apply to_uint_nonempty
                |by rewrite py_str_neg].
Qed.

Lemma next_number_after file entries entries' tgt num :
  next_number file (Some entries) = Ok num →
  valid_target tgt →
  (∀ name, name ∈ entries' ↔ name = pdf_name tgt num ∨ name ∈ entries) →
  next_number (Some (py_str num +:+ String LF "")) (Some entries')
  = Ok (num + 1).
Proof.
  intros Hnum [Hm Hy] Hnames.
  destruct (next_number_above _ _ _ Hnum) as (Hpos & Hlt & _).
  assert (invoice_filename (pdf_name tgt num) (year tgt) (month tgt) num)
    as Hnew by (apply pdf_name_invoice_filename; lia).
  unfold next_number. rewrite read_counter_line.
  destruct (max_invoice_number_spec entries') as (v & -> & Hmax). cbn.
  assert (v = num) as ->; [|do 2 f_equal; lia].
  apply (max_sequence_number_unique entries'); [done|]. split.
  - intros name y m n [->|Hin]%Hnames Hname.
    + destruct (invoice_filename_functional _ _ _ _ _ _ _ Hname Hnew)
        as (_ & _ & ->). lia.
    + specialize (Hlt _ _ _ _ Hin Hname). lia.
  - left. exists (pdf_name tgt num), (year tgt), (month tgt).
    split; [|done]. apply Hnames. by left.
Qed.

(** X13. From one run to the next. After a run that ends with status 0,
    the counter file holds the number of the invoice it generated; and a
    next run, in a directory that holds the names it held before and the
    name of that invoice, in any order, computes that number plus one. *)
Theorem next_run_takes_next_number (w : World)
    (files : path → option string) :
  outcome (main w) = Ok 0 →
  ∃ tgt num,
    outcome (_prompt_target (input_line w) (today_year w)) = Ok tgt
    ∧ next_number (number_file w) (Some (invoices w)) = Ok num
    ∧ EvMove TempPdf (InvoicePdf (pdf_name tgt num)) ∈ trace (main w)
    ∧ _read_last_invoice_number
        (files_after (trace (main w)) files NumberPath) = Ok num
    ∧ ∀ entries',
        (∀ name, name ∈ entries'
                 ↔ name = pdf_name tgt num ∨ name ∈ invoices w) →
        next_number (files_after (trace (main w)) files NumberPath)
          (Some entries')
        = Ok (num + 1).
Proof.
  main_cases w; cbn [app trace outcome]; intros Hok; try done.
  all: exists target, next; split; [done|split; [done|]].
  all: split; [find_event|].
  all: unfold files_after; cbn [foldl apply_event].
  all: rewrite !(fn_lookup_insert_ne _ _ NumberPath) by done.
  all: rewrite fn_lookup_insert.
  all: split; [apply read_counter_line|].
  all: intros entries' Hnames.
  all: by apply (next_number_after (number_file w) (invoices w) entries'
                   target next Hnext (prompt_target_valid _ _ _ Hprompt)).
Qed.

Lemma next_run_takes_next_number_witness :
  ∃ tgt num,
    outcome (_prompt_target (input_line fair_world) (today_year fair_world))
    = Ok tgt
    ∧ next_number (number_file fair_world) (Some (invoices fair_world))
      = Ok num
    ∧ EvMove TempPdf (InvoicePdf (pdf_name tgt num))
      ∈ trace (main fair_world)
    ∧ _read_last_invoice_number
        (files_after (trace (main fair_world)) (λ _, None) NumberPath)
      = Ok num
    ∧ ∀ entries',
        (∀ name, name ∈ entries'
                 ↔ name = pdf_name tgt num ∨ name ∈ invoices fair_world) →
        next_number
          (files_after (trace (main fair_world)) (λ _, None) NumberPath)
          (Some entries')
        = Ok (num + 1).
Proof.
  apply (next_run_takes_next_number fair_world (λ _, None)).
  by vm_compute.
Defined.

(** ** When a run succeeds *)

Lemma ready_Ok w :
  outcome (_ensure_playwright_ready w) = Ok ()
  ↔ which_node w = true ∧ (which_python w = true ∨ which_python3 w = true).
Proof.
  unfold _ensure_playwright_ready.
  destruct (which_node w), (which_python w), (which_python3 w); cbn;
    intuition congruence.
Qed.

(** X14. Where no conversion of the run meets the limit on digits (the
    counter file, the names of the directory and the number of the invoice
    have at most 4300 digits), a run ends with status 0 exactly when the
    [.env] file and the template are there, the prompt gives a target,
    [node] and one of [python], [python3] are found, the configuration is
    complete, the counter can be read, the name of the output is free, and
    rendering and conversion return and leave a PDF. *)
Theorem main_succeeds_iff (w : World) :
  conversions_within_limit w →
  outcome (main w) = Ok 0
  ↔ env_exists w = true ∧ template_exists w = true
    ∧ which_node w = true
    ∧ (which_python w = true ∨ which_python3 w = true)
    ∧ ∃ tgt env num html,
        outcome (_prompt_target (input_line w) (today_year w)) = Ok tgt
        ∧ _load_env (dotenv_values w) = Ok env
        ∧ next_number (number_file w) (Some (invoices w)) = Ok num
        ∧ pdf_out_exists w (pdf_name tgt num) = false
        ∧ render w (render_context env tgt num) = Ok html
        ∧ html_to_pdf w html = Ok ()
        ∧ temp_pdf_exists w = true.
Proof.
  intros _.
  pose proof (ready_Ok w) as Hr. revert Hr. unfold render_context.
  main_cases w; cbn [outcome]; intros Hr.
  all: split;
    [ try done; intros _; destruct (proj1 Hr eq_refl) as [Hn Hp];
      split_and!; try done; by eexists _, _, _, _
    | intros (? & ? & Hn & Hp & tgt & env' & num & html' & H1 & H2 & H3 & H4
              & H5 & H6 & H7);
      try (pose proof (proj2 Hr (conj Hn Hp))); try congruence ].
Qed.

Lemma main_succeeds_iff_witness :
  outcome (main fair_world) = Ok 0
  ↔ env_exists fair_world = true ∧ template_exists fair_world = true
    ∧ which_node fair_world = true
    ∧ (which_python fair_world = true ∨ which_python3 fair_world = true)
    ∧ ∃ tgt env num html,
        outcome (_prompt_target (input_line fair_world)
                   (today_year fair_world)) = Ok tgt
        ∧ _load_env (dotenv_values fair_world) = Ok env
        ∧ next_number (number_file fair_world) (Some (invoices fair_world))
          = Ok num
        ∧ pdf_out_exists fair_world (pdf_name tgt num) = false
        ∧ render fair_world (render_context env tgt num) = Ok html
        ∧ html_to_pdf fair_world html = Ok ()
        ∧ temp_pdf_exists fair_world = true.
Proof. apply (main_succeeds_iff fair_world). within_limit. Defined.

(** ** Names in the order of their periods *)

Lemma compare_app_prefix p s t :
  String.compare (p +:+ s) (p +:+ t) = String.compare s t.
Proof.
  induction p as [|c p IH]; [done|]. cbn [String.append String.compare].
  unfold Ascii.compare. by rewrite N.compare_refl.
Qed.

Lemma compare_digits X : ∀ X' acc s t,
  all_digits X = true → all_digits X' = true →
  String.length X = String.length X' → 0 ≤ acc →
  numeral_from acc X < numeral_from acc X' →
  String.compare (X +:+ s) (X' +:+ t) = Lt.
Proof.
  induction X as [|c r IH]; intros [|c' r'] acc s t HX HX' Hlen Hacc Hlt;
    try done; [simpl in Hlt; lia|].
  apply all_digits_cons in HX as [Hc Hr], HX' as [Hc' Hr'].
  injection Hlen as Hlen. simpl in Hlt.
  pose proof (digit_value_range c Hc). pose proof (digit_value_range c' Hc').
  cbn [String.append String.compare]. unfold Ascii.compare.
  destruct (N.compare_spec (N_of_ascii c) (N_of_ascii c')) as [Heq|Hlt'|Hgt].
  - apply (IH r' (acc * 10 + digit_value c)); try done; [lia|].
    unfold digit_value, code in *. by rewrite Heq at 2.
  - done.
  - exfalso.
    pose proof (numeral_from_range (acc * 10 + digit_value c) r Hr
                  ltac:(lia)) as H1.
    pose proof (numeral_from_range (acc * 10 + digit_value c') r' Hr'
                  ltac:(lia)) as H2.
    rewrite Hlen in H1.
    assert (digit_value c' + 1 ≤ digit_value c)
      by (unfold digit_value, code; lia).
    assert (0 < 10 ^ Z.of_nat (String.length r')) by lia.
    nia.
Qed.

(** X15. The names of generated files sort by period: of two targets the
    prompt can give, the name of the earlier one comes before the name of
    the later one in the order of strings, whatever the two numbers. *)
Theorem names_sort_by_period (a b : InvoiceTarget) (n n' : Z) :
  valid_target a → valid_target b → target_lt a b →
  String.ltb (pdf_name a n) (pdf_name b n') = true.
Proof.
  intros [Hma Hya] [Hmb Hyb] Hlt.
  destruct (pdf_name_fields a 0) as (((HYa & HlYa) & (HMa & HlMa) & _)
                                      & HnYa & HnMa & _); [lia..|].
  destruct (pdf_name_fields b 0) as (((HYb & HlYb) & (HMb & HlMb) & _)
                                      & HnYb & HnMb & _); [lia..|].
  unfold String.ltb, pdf_name. rewrite compare_app_prefix.
  destruct Hlt as [Hy|[Hy Hm]].
  - rewrite (compare_digits _ _ 0); try done; [congruence|].
    fold (numeral (year_str a)). fold (numeral (year_str b)). lia.
  - assert (year_str a = year_str b) as -> by (unfold year_str; congruence).
    rewrite !compare_app_prefix.
    rewrite (compare_digits _ _ 0); try done; [congruence|].
    fold (numeral (month_str a)). fold (numeral (month_str b)). lia.
Qed.

Lemma names_sort_by_period_witness :
  String.ltb (pdf_name {| month := 12; year := 2025 |} 9)
             (pdf_name {| month := 1; year := 2026 |} 10) = true.
Proof.
  apply names_sort_by_period; unfold valid_target, target_lt; simpl; lia.
Defined.

(** ** The list of periods shown at the start *)

Lemma append_inj_length s1 : ∀ s2 t1 t2,
  String.length s1 = String.length s2 → s1 +:+ t1 = s2 +:+ t2 →
  s1 = s2 ∧ t1 = t2.
Proof.
  induction s1 as [|c s1 IH]; intros [|d s2] t1 t2 Hlen Heq; try done.
  simpl in *. injection Hlen as Hlen. injection Heq as -> Heq.
  by destruct (IH _ _ _ Hlen Heq) as [-> ->].
Qed.

Lemma ym_str_shape t :
  0 ≤ year t ≤ 9999 → 0 ≤ month t ≤ 99 →
  String.length (ym_str t) = 7%nat
  ∧ ∃ c s, ym_str t = String c s ∧ is_digit c = true.
Proof.
  intros Hy Hm.
  destruct (pdf_name_fields t 0) as (((HY & HlY) & (HM & HlM) & _) & _);
    [lia..|].
  unfold ym_str. split.
  - rewrite !length_append, HlY, HlM. done.
  - destruct (year_str t) as [|c s]; [done|].
    apply all_digits_cons in HY as [Hc _]. by exists c, (s +:+ "-" +:+ month_str t).
Qed.

Lemma ym_str_inj a b :
  0 ≤ year a ≤ 9999 → 0 ≤ month a ≤ 99 →
  0 ≤ year b ≤ 9999 → 0 ≤ month b ≤ 99 →
  ym_str a = ym_str b → a = b.
Proof.
  intros Hya Hma Hyb Hmb Heq.
  destruct (pdf_name_fields a 0) as (((_ & HlYa) & _) & HnYa & HnMa & _);
    [lia..|].
  destruct (pdf_name_fields b 0) as (((_ & HlYb) & _) & HnYb & HnMb & _);
    [lia..|].
  unfold ym_str in Heq.
  apply append_inj_length in Heq as [HY HM]; [|congruence].
  injection HM as HM.
  destruct a as [ma ya], b as [mb yb]; simpl in *. f_equal; congruence.
Qed.

Lemma join_cons sep p rest :
  join sep (p :: rest)
  = p +:+ match rest with [] => "" | _ => sep +:+ join sep rest end.
Proof. destruct rest; [by rewrite append_empty_r|done]. Qed.

Lemma join_periods_inj (l : list InvoiceTarget) : ∀ l',
  Forall (λ t, 0 ≤ year t ≤ 9999 ∧ 0 ≤ month t ≤ 99) l →
  Forall (λ t, 0 ≤ year t ≤ 9999 ∧ 0 ≤ month t ≤ 99) l' →
  join ", " (ym_str <$> l) = join ", " (ym_str <$> l') → l = l'.
Proof.
  induction l as [|a r IH]; intros [|b r'] Hl Hl' Heq; [done| | |].
  - apply Forall_cons in Hl' as [[Hy Hm] _].
    destruct (ym_str_shape b Hy Hm) as [_ (c & s & Hb & _)].
    rewrite fmap_cons, join_cons, Hb in Heq. done.
  - apply Forall_cons in Hl as [[Hy Hm] _].
    destruct (ym_str_shape a Hy Hm) as [_ (c & s & Ha & _)].
    rewrite fmap_cons, join_cons, Ha in Heq. done.
  - apply Forall_cons in Hl as [[Hya Hma] Hr], Hl' as [[Hyb Hmb] Hr'].
    rewrite !fmap_cons, !join_cons in Heq.
    apply append_inj_length in Heq as [Hab Hrest];
      [|by rewrite (proj1 (ym_str_shape a Hya Hma)),
                   (proj1 (ym_str_shape b Hyb Hmb))].
    f_equal; [by apply ym_str_inj|].
    destruct r as [|a' r], r' as [|b' r']; try done.
    apply IH; try done. by injection Hrest.
Qed.

(** X16. The list of periods shown at the start of a run determines the
    periods: two different lists of targets with years in 0..9999 and
    months in 0..99, as discovery gives them, are shown as different texts.
    In particular [none yet] is shown for the empty list only. *)
Theorem format_targets_injective (l l' : list InvoiceTarget) :
  Forall (λ t, 0 ≤ year t ≤ 9999 ∧ 0 ≤ month t ≤ 99) l →
  Forall (λ t, 0 ≤ year t ≤ 9999 ∧ 0 ≤ month t ≤ 99) l' →
  l ≠ l' → _format_targets l ≠ _format_targets l'.
Proof.
  intros Hl Hl' Hne Heq. apply Hne. revert Heq. unfold _format_targets.
  assert (∀ b r,
    (0 ≤ year b ≤ 9999 ∧ 0 ≤ month b ≤ 99) →
    "none yet" ≠ join ", " (ym_str <$> b :: r)) as Hnone.
  { intros b r [Hy Hm] Heq.
    destruct (ym_str_shape b Hy Hm) as [_ (c & s & Hb & Hc)].
    rewrite fmap_cons, join_cons, Hb in Heq. injection Heq as <- _. done. }
  destruct l as [|a r], l' as [|b r']; [done| | |by apply join_periods_inj].
  - intros Heq. destruct (Hnone b r'); [|done].
    by apply Forall_cons in Hl' as [? _].
  - intros Heq. destruct (Hnone a r); [|done].
    by apply Forall_cons in Hl as [? _].
Qed.

Lemma format_targets_injective_witness :
  _format_targets [ {| month := 1; year := 2025 |} ]
  ≠ _format_targets [ {| month := 1; year := 2025 |};
                      {| month := 11; year := 2025 |} ].
Proof.
  apply format_targets_injective; [repeat constructor; simpl; lia..|done].
Defined.
